(** * UnixFS option resolution (core/coreiface/options/unixfs.go)

    A shallow embedding of the settings records, the option constructors
    and the eight [Unixfs*Options] resolvers of package [options], with the
    properties of the resolvers that the design document states.

    Go values are rendered as follows.  [int], [int64] and [uint64] are
    plain [Z]: the resolvers only compare and copy these numbers, so no
    wrap-around arises.  A pointer result [*T] that may be [nil] is an
    [option T]; a Go [error] that may be [nil] is an [option error].  An
    option, a Go function from a pointer to [T] to an error, mutates the
    record it is handed and returns an error, so it is a function
    [T -> T * option error]. *)

From Stdlib Require Import ZArith String List Bool Lia DecimalString.
Import ListNotations.

Local Open Scope string_scope.
Local Open Scope Z_scope.

(** ** Errors *)

(** A Go error value carrying its message, as made by [errors.New] and
    [fmt.Errorf]. *)
Inductive error : Type :=
  | errorString (msg : string).

Definition errors_New (text : string) : error := errorString text.

(** The [%d] verb of package [fmt] on an integer: decimal digits with a
    leading minus sign for negative numbers. *)
Definition fmt_d (n : Z) : string := NilZero.string_of_int (Z.to_int n).

(** [fmt.Errorf(format)] for a format without verbs. *)
Definition fmt_Errorf (format : string) : error := errorString format.

(** [fmt.Errorf(prefix + "%d", n)]. *)
Definition fmt_Errorf_d (prefix : string) (n : Z) : error :=
  errorString (prefix ++ fmt_d n).

(** The three error values the resolvers create, under the names the design
    document gives them. *)
Definition ConflictingOption : error :=
  fmt_Errorf "nocopy option requires '--raw-leaves' to be enabled as well".

Definition UnsupportedCombination : error :=
  errors_New "CIDv0 only supports sha2-256".

Definition UnknownCidVersion (version : Z) : error :=
  fmt_Errorf_d "unknown CID version: " version.

(** ** Imported packages *)

Module mh.

(** Modelled from the spec: the constant [mh.SHA2_256] of package
    go-multihash, which is imported and not part of this repository; it is
    the code of the standard 256-bit hash function, 0x12 in the multihash
    table. *)
Definition SHA2_256 : Z := 0x12.

End mh.

Module cid.

(** Modelled from the spec: the struct [cid.Prefix] of package go-cid,
    which is imported and not part of this repository: the CID version, the
    codec, the hash function code and the hash length. *)
Record Prefix : Type := mkPrefix {
  Version : Z;
  Codec : Z;
  MhType : Z;
  MhLength : Z
}.

(** The composite literal [cid.Prefix{}]: every field has its zero value. *)
Definition zero : Prefix :=
  {| Version := 0; Codec := 0; MhType := 0; MhLength := 0 |}.

(** Modelled from the spec: the codec constant [cid.DagProtobuf] of package
    go-cid (0x70), the codec of the prefixes of package merkledag. *)
Definition DagProtobuf : Z := 0x70.

End cid.

Module dag.

(** Modelled from the spec: [dag.PrefixForCidVersion] of package
    boxo/ipld/merkledag, which is imported and not part of this repository.
    Prefix derivation succeeds for the versions 0 and 1, with a prefix for
    the standard hash function whose hash length is the sentinel -1, and
    fails with the unknown-CID-version error for every other value. *)
Definition PrefixForCidVersion (version : Z) : cid.Prefix * option error :=
  match version with
  | 0 =>
      ({| cid.Version := 0; cid.Codec := cid.DagProtobuf;
          cid.MhType := mh.SHA2_256; cid.MhLength := -1 |}, None)
  | 1 =>
      ({| cid.Version := 1; cid.Codec := cid.DagProtobuf;
          cid.MhType := mh.SHA2_256; cid.MhLength := -1 |}, None)
  | _ => (cid.zero, Some (UnknownCidVersion version))
  end.

End dag.

(** ** Settings records *)

Inductive Layout : Type :=
  | BalancedLayout
  | TrickleLayout.

(** A send-only channel [chan<- interface{}], named by a handle; the [nil]
    channel is [None] of [option chan]. *)
Definition chan : Type := nat.

(** One module per settings struct, as several structs share field names:
    the record, and for each field the assignment [settings.Field = v]. *)

Module Add.

Record UnixfsAddSettings : Type := mk {
  CidVersion : Z;
  MhType : Z;
  Inline : bool;
  InlineLimit : Z;
  RawLeaves : bool;
  RawLeavesSet : bool;
  Chunker : string;
  Layout : Layout;
  Pin : bool;
  OnlyHash : bool;
  FsCache : bool;
  NoCopy : bool;
  Events : option chan;
  Silent : bool;
  Progress : bool;
  ToFiles : string
}.

Definition set_CidVersion (v : Z) (s : UnixfsAddSettings) : UnixfsAddSettings :=
  {| CidVersion := v; MhType := MhType s; Inline := Inline s;
     InlineLimit := InlineLimit s; RawLeaves := RawLeaves s;
     RawLeavesSet := RawLeavesSet s; Chunker := Chunker s;
     Layout := Layout s; Pin := Pin s; OnlyHash := OnlyHash s;
     FsCache := FsCache s; NoCopy := NoCopy s; Events := Events s;
     Silent := Silent s; Progress := Progress s; ToFiles := ToFiles s |}.

Definition set_MhType (v : Z) (s : UnixfsAddSettings) : UnixfsAddSettings :=
  {| CidVersion := CidVersion s; MhType := v; Inline := Inline s;
     InlineLimit := InlineLimit s; RawLeaves := RawLeaves s;
     RawLeavesSet := RawLeavesSet s; Chunker := Chunker s;
     Layout := Layout s; Pin := Pin s; OnlyHash := OnlyHash s;
     FsCache := FsCache s; NoCopy := NoCopy s; Events := Events s;
     Silent := Silent s; Progress := Progress s; ToFiles := ToFiles s |}.

Definition set_Inline (v : bool) (s : UnixfsAddSettings) : UnixfsAddSettings :=
  {| CidVersion := CidVersion s; MhType := MhType s; Inline := v;
     InlineLimit := InlineLimit s; RawLeaves := RawLeaves s;
     RawLeavesSet := RawLeavesSet s; Chunker := Chunker s;
     Layout := Layout s; Pin := Pin s; OnlyHash := OnlyHash s;
     FsCache := FsCache s; NoCopy := NoCopy s; Events := Events s;
     Silent := Silent s; Progress := Progress s; ToFiles := ToFiles s |}.

Definition set_InlineLimit (v : Z) (s : UnixfsAddSettings)
    : UnixfsAddSettings :=
  {| CidVersion := CidVersion s; MhType := MhType s; Inline := Inline s;
     InlineLimit := v; RawLeaves := RawLeaves s;
     RawLeavesSet := RawLeavesSet s; Chunker := Chunker s;
     Layout := Layout s; Pin := Pin s; OnlyHash := OnlyHash s;
     FsCache := FsCache s; NoCopy := NoCopy s; Events := Events s;
     Silent := Silent s; Progress := Progress s; ToFiles := ToFiles s |}.

Definition set_RawLeaves (v : bool) (s : UnixfsAddSettings)
    : UnixfsAddSettings :=
  {| CidVersion := CidVersion s; MhType := MhType s; Inline := Inline s;
     InlineLimit := InlineLimit s; RawLeaves := v;
     RawLeavesSet := RawLeavesSet s; Chunker := Chunker s;
     Layout := Layout s; Pin := Pin s; OnlyHash := OnlyHash s;
     FsCache := FsCache s; NoCopy := NoCopy s; Events := Events s;
     Silent := Silent s; Progress := Progress s; ToFiles := ToFiles s |}.

Definition set_RawLeavesSet (v : bool) (s : UnixfsAddSettings)
    : UnixfsAddSettings :=
  {| CidVersion := CidVersion s; MhType := MhType s; Inline := Inline s;
     InlineLimit := InlineLimit s; RawLeaves := RawLeaves s;
     RawLeavesSet := v; Chunker := Chunker s; Layout := Layout s;
     Pin := Pin s; OnlyHash := OnlyHash s; FsCache := FsCache s;
     NoCopy := NoCopy s; Events := Events s; Silent := Silent s;
     Progress := Progress s; ToFiles := ToFiles s |}.

Definition set_Chunker (v : string) (s : UnixfsAddSettings)
    : UnixfsAddSettings :=
  {| CidVersion := CidVersion s; MhType := MhType s; Inline := Inline s;
     InlineLimit := InlineLimit s; RawLeaves := RawLeaves s;
     RawLeavesSet := RawLeavesSet s; Chunker := v; Layout := Layout s;
     Pin := Pin s; OnlyHash := OnlyHash s; FsCache := FsCache s;
     NoCopy := NoCopy s; Events := Events s; Silent := Silent s;
     Progress := Progress s; ToFiles := ToFiles s |}.

Definition set_Layout v (s : UnixfsAddSettings) : UnixfsAddSettings :=
  {| CidVersion := CidVersion s; MhType := MhType s; Inline := Inline s;
     InlineLimit := InlineLimit s; RawLeaves := RawLeaves s;
     RawLeavesSet := RawLeavesSet s; Chunker := Chunker s; Layout := v;
     Pin := Pin s; OnlyHash := OnlyHash s; FsCache := FsCache s;
     NoCopy := NoCopy s; Events := Events s; Silent := Silent s;
     Progress := Progress s; ToFiles := ToFiles s |}.

Definition set_Pin (v : bool) (s : UnixfsAddSettings) : UnixfsAddSettings :=
  {| CidVersion := CidVersion s; MhType := MhType s; Inline := Inline s;
     InlineLimit := InlineLimit s; RawLeaves := RawLeaves s;
     RawLeavesSet := RawLeavesSet s; Chunker := Chunker s;
     Layout := Layout s; Pin := v; OnlyHash := OnlyHash s;
     FsCache := FsCache s; NoCopy := NoCopy s; Events := Events s;
     Silent := Silent s; Progress := Progress s; ToFiles := ToFiles s |}.

Definition set_OnlyHash (v : bool) (s : UnixfsAddSettings)
    : UnixfsAddSettings :=
  {| CidVersion := CidVersion s; MhType := MhType s; Inline := Inline s;
     InlineLimit := InlineLimit s; RawLeaves := RawLeaves s;
     RawLeavesSet := RawLeavesSet s; Chunker := Chunker s;
     Layout := Layout s; Pin := Pin s; OnlyHash := v; FsCache := FsCache s;
     NoCopy := NoCopy s; Events := Events s; Silent := Silent s;
     Progress := Progress s; ToFiles := ToFiles s |}.

Definition set_FsCache (v : bool) (s : UnixfsAddSettings) : UnixfsAddSettings :=
  {| CidVersion := CidVersion s; MhType := MhType s; Inline := Inline s;
     InlineLimit := InlineLimit s; RawLeaves := RawLeaves s;
     RawLeavesSet := RawLeavesSet s; Chunker := Chunker s;
     Layout := Layout s; Pin := Pin s; OnlyHash := OnlyHash s; FsCache := v;
     NoCopy := NoCopy s; Events := Events s; Silent := Silent s;
     Progress := Progress s; ToFiles := ToFiles s |}.

Definition set_NoCopy (v : bool) (s : UnixfsAddSettings) : UnixfsAddSettings :=
  {| CidVersion := CidVersion s; MhType := MhType s; Inline := Inline s;
     InlineLimit := InlineLimit s; RawLeaves := RawLeaves s;
     RawLeavesSet := RawLeavesSet s; Chunker := Chunker s;
     Layout := Layout s; Pin := Pin s; OnlyHash := OnlyHash s;
     FsCache := FsCache s; NoCopy := v; Events := Events s;
     Silent := Silent s; Progress := Progress s; ToFiles := ToFiles s |}.

Definition set_Events (v : option chan) (s : UnixfsAddSettings)
    : UnixfsAddSettings :=
  {| CidVersion := CidVersion s; MhType := MhType s; Inline := Inline s;
     InlineLimit := InlineLimit s; RawLeaves := RawLeaves s;
     RawLeavesSet := RawLeavesSet s; Chunker := Chunker s;
     Layout := Layout s; Pin := Pin s; OnlyHash := OnlyHash s;
     FsCache := FsCache s; NoCopy := NoCopy s; Events := v;
     Silent := Silent s; Progress := Progress s; ToFiles := ToFiles s |}.

Definition set_Silent (v : bool) (s : UnixfsAddSettings) : UnixfsAddSettings :=
  {| CidVersion := CidVersion s; MhType := MhType s; Inline := Inline s;
     InlineLimit := InlineLimit s; RawLeaves := RawLeaves s;
     RawLeavesSet := RawLeavesSet s; Chunker := Chunker s;
     Layout := Layout s; Pin := Pin s; OnlyHash := OnlyHash s;
     FsCache := FsCache s; NoCopy := NoCopy s; Events := Events s;
     Silent := v; Progress := Progress s; ToFiles := ToFiles s |}.

Definition set_Progress (v : bool) (s : UnixfsAddSettings)
    : UnixfsAddSettings :=
  {| CidVersion := CidVersion s; MhType := MhType s; Inline := Inline s;
     InlineLimit := InlineLimit s; RawLeaves := RawLeaves s;
     RawLeavesSet := RawLeavesSet s; Chunker := Chunker s;
     Layout := Layout s; Pin := Pin s; OnlyHash := OnlyHash s;
     FsCache := FsCache s; NoCopy := NoCopy s; Events := Events s;
     Silent := Silent s; Progress := v; ToFiles := ToFiles s |}.

Definition set_ToFiles (v : string) (s : UnixfsAddSettings)
    : UnixfsAddSettings :=
  {| CidVersion := CidVersion s; MhType := MhType s; Inline := Inline s;
     InlineLimit := InlineLimit s; RawLeaves := RawLeaves s;
     RawLeavesSet := RawLeavesSet s; Chunker := Chunker s;
     Layout := Layout s; Pin := Pin s; OnlyHash := OnlyHash s;
     FsCache := FsCache s; NoCopy := NoCopy s; Events := Events s;
     Silent := Silent s; Progress := Progress s; ToFiles := v |}.

End Add.

Abbreviation UnixfsAddSettings := Add.UnixfsAddSettings.
Definition UnixfsAddOption : Type :=
  UnixfsAddSettings -> UnixfsAddSettings * option error.

Module Ls.

Record UnixfsLsSettings : Type := mk {
  ResolveChildren : bool;
  UseCumulativeSize : bool
}.

Definition set_ResolveChildren (v : bool) (s : UnixfsLsSettings)
    : UnixfsLsSettings :=
  {| ResolveChildren := v; UseCumulativeSize := UseCumulativeSize s |}.

Definition set_UseCumulativeSize (v : bool) (s : UnixfsLsSettings)
    : UnixfsLsSettings :=
  {| ResolveChildren := ResolveChildren s; UseCumulativeSize := v |}.

End Ls.

Abbreviation UnixfsLsSettings := Ls.UnixfsLsSettings.
Definition UnixfsLsOption : Type :=
  UnixfsLsSettings -> UnixfsLsSettings * option error.

Module Mkdir.

Record UnixfsMkdirSettings : Type := mk {
  Parents : bool;
  CidVersion : Z;
  MhType : Z
}.

Definition set_Parents (v : bool) (s : UnixfsMkdirSettings)
    : UnixfsMkdirSettings :=
  {| Parents := v; CidVersion := CidVersion s; MhType := MhType s |}.

Definition set_CidVersion (v : Z) (s : UnixfsMkdirSettings)
    : UnixfsMkdirSettings :=
  {| Parents := Parents s; CidVersion := v; MhType := MhType s |}.

Definition set_MhType (v : Z) (s : UnixfsMkdirSettings) : UnixfsMkdirSettings :=
  {| Parents := Parents s; CidVersion := CidVersion s; MhType := v |}.

End Mkdir.

Abbreviation UnixfsMkdirSettings := Mkdir.UnixfsMkdirSettings.
Definition UnixfsMkdirOption : Type :=
  UnixfsMkdirSettings -> UnixfsMkdirSettings * option error.

Module Rm.

Record UnixfsRmSettings : Type := mk {
  Recursive : bool;
  Force : bool
}.

Definition set_Recursive (v : bool) (s : UnixfsRmSettings) : UnixfsRmSettings :=
  {| Recursive := v; Force := Force s |}.

Definition set_Force (v : bool) (s : UnixfsRmSettings) : UnixfsRmSettings :=
  {| Recursive := Recursive s; Force := v |}.

End Rm.

Abbreviation UnixfsRmSettings := Rm.UnixfsRmSettings.
Definition UnixfsRmOption : Type :=
  UnixfsRmSettings -> UnixfsRmSettings * option error.

Module Cp.

Record UnixfsCpSettings : Type := mk {
  Parents : bool
}.

Definition set_Parents (v : bool) (s : UnixfsCpSettings) : UnixfsCpSettings :=
  {| Parents := v |}.

End Cp.

Abbreviation UnixfsCpSettings := Cp.UnixfsCpSettings.
Definition UnixfsCpOption : Type :=
  UnixfsCpSettings -> UnixfsCpSettings * option error.

Module Read.

Record UnixfsReadSettings : Type := mk {
  Offset : Z;
  Count : Z
}.

Definition set_Offset (v : Z) (s : UnixfsReadSettings) : UnixfsReadSettings :=
  {| Offset := v; Count := Count s |}.

Definition set_Count (v : Z) (s : UnixfsReadSettings) : UnixfsReadSettings :=
  {| Offset := Offset s; Count := v |}.

End Read.

Abbreviation UnixfsReadSettings := Read.UnixfsReadSettings.
Definition UnixfsReadOption : Type :=
  UnixfsReadSettings -> UnixfsReadSettings * option error.

Module Stat.

Record UnixfsStatSettings : Type := mk {
  Format : string;
  Hash : bool;
  Size : bool;
  WithLocal : bool
}.

Definition set_Format (v : string) (s : UnixfsStatSettings)
    : UnixfsStatSettings :=
  {| Format := v; Hash := Hash s; Size := Size s; WithLocal := WithLocal s |}.

Definition set_Hash (v : bool) (s : UnixfsStatSettings) : UnixfsStatSettings :=
  {| Format := Format s; Hash := v; Size := Size s;
     WithLocal := WithLocal s |}.

Definition set_Size (v : bool) (s : UnixfsStatSettings) : UnixfsStatSettings :=
  {| Format := Format s; Hash := Hash s; Size := v;
     WithLocal := WithLocal s |}.

Definition set_WithLocal (v : bool) (s : UnixfsStatSettings)
    : UnixfsStatSettings :=
  {| Format := Format s; Hash := Hash s; Size := Size s; WithLocal := v |}.

End Stat.

Abbreviation UnixfsStatSettings := Stat.UnixfsStatSettings.
Definition UnixfsStatOption : Type :=
  UnixfsStatSettings -> UnixfsStatSettings * option error.

Module Write.

Record UnixfsWriteSettings : Type := mk {
  Offset : Z;
  Create : bool;
  Parents : bool;
  Truncate : bool;
  Count : Z;
  RawLeaves : bool;
  CidVersion : Z;
  MhType : Z
}.

Definition set_Offset (v : Z) (s : UnixfsWriteSettings) : UnixfsWriteSettings :=
  {| Offset := v; Create := Create s; Parents := Parents s;
     Truncate := Truncate s; Count := Count s; RawLeaves := RawLeaves s;
     CidVersion := CidVersion s; MhType := MhType s |}.

Definition set_Create (v : bool) (s : UnixfsWriteSettings)
    : UnixfsWriteSettings :=
  {| Offset := Offset s; Create := v; Parents := Parents s;
     Truncate := Truncate s; Count := Count s; RawLeaves := RawLeaves s;
     CidVersion := CidVersion s; MhType := MhType s |}.

Definition set_Parents (v : bool) (s : UnixfsWriteSettings)
    : UnixfsWriteSettings :=
  {| Offset := Offset s; Create := Create s; Parents := v;
     Truncate := Truncate s; Count := Count s; RawLeaves := RawLeaves s;
     CidVersion := CidVersion s; MhType := MhType s |}.

Definition set_Truncate (v : bool) (s : UnixfsWriteSettings)
    : UnixfsWriteSettings :=
  {| Offset := Offset s; Create := Create s; Parents := Parents s;
     Truncate := v; Count := Count s; RawLeaves := RawLeaves s;
     CidVersion := CidVersion s; MhType := MhType s |}.

Definition set_Count (v : Z) (s : UnixfsWriteSettings) : UnixfsWriteSettings :=
  {| Offset := Offset s; Create := Create s; Parents := Parents s;
     Truncate := Truncate s; Count := v; RawLeaves := RawLeaves s;
     CidVersion := CidVersion s; MhType := MhType s |}.

Definition set_RawLeaves (v : bool) (s : UnixfsWriteSettings)
    : UnixfsWriteSettings :=
  {| Offset := Offset s; Create := Create s; Parents := Parents s;
     Truncate := Truncate s; Count := Count s; RawLeaves := v;
     CidVersion := CidVersion s; MhType := MhType s |}.

Definition set_CidVersion (v : Z) (s : UnixfsWriteSettings)
    : UnixfsWriteSettings :=
  {| Offset := Offset s; Create := Create s; Parents := Parents s;
     Truncate := Truncate s; Count := Count s; RawLeaves := RawLeaves s;
     CidVersion := v; MhType := MhType s |}.

Definition set_MhType (v : Z) (s : UnixfsWriteSettings) : UnixfsWriteSettings :=
  {| Offset := Offset s; Create := Create s; Parents := Parents s;
     Truncate := Truncate s; Count := Count s; RawLeaves := RawLeaves s;
     CidVersion := CidVersion s; MhType := v |}.

End Write.

Abbreviation UnixfsWriteSettings := Write.UnixfsWriteSettings.
Definition UnixfsWriteOption : Type :=
  UnixfsWriteSettings -> UnixfsWriteSettings * option error.

(** ** Option constructors *)

(** The methods of the value [Unixfs]: each returns the option that
    assigns its argument to a field of the settings and returns a nil
    error. *)
Module Unixfs.

Definition CidVersion (version : Z) : UnixfsAddOption :=
  fun settings => (Add.set_CidVersion version settings, None).

Definition Hash (mhtype : Z) : UnixfsAddOption :=
  fun settings => (Add.set_MhType mhtype settings, None).

Definition RawLeaves (enable : bool) : UnixfsAddOption :=
  fun settings =>
    let settings := Add.set_RawLeaves enable settings in
    let settings := Add.set_RawLeavesSet true settings in
    (settings, None).

Definition Inline (enable : bool) : UnixfsAddOption :=
  fun settings => (Add.set_Inline enable settings, None).

Definition InlineLimit (limit : Z) : UnixfsAddOption :=
  fun settings => (Add.set_InlineLimit limit settings, None).

Definition Chunker (chunker : string) : UnixfsAddOption :=
  fun settings => (Add.set_Chunker chunker settings, None).

Definition Layout (layout : Layout) : UnixfsAddOption :=
  fun settings => (Add.set_Layout layout settings, None).

Definition Pin (pin : bool) : UnixfsAddOption :=
  fun settings => (Add.set_Pin pin settings, None).

Definition HashOnly (hashOnly : bool) : UnixfsAddOption :=
  fun settings => (Add.set_OnlyHash hashOnly settings, None).

Definition Events (sink : option chan) : UnixfsAddOption :=
  fun settings => (Add.set_Events sink settings, None).

Definition Silent (silent : bool) : UnixfsAddOption :=
  fun settings => (Add.set_Silent silent settings, None).

Definition Progress (enable : bool) : UnixfsAddOption :=
  fun settings => (Add.set_Progress enable settings, None).

Definition ToFiles (path : string) : UnixfsAddOption :=
  fun settings => (Add.set_ToFiles path settings, None).

Definition FsCache (enable : bool) : UnixfsAddOption :=
  fun settings => (Add.set_FsCache enable settings, None).

Definition Nocopy (enable : bool) : UnixfsAddOption :=
  fun settings => (Add.set_NoCopy enable settings, None).

Definition ResolveChildren (resolve : bool) : UnixfsLsOption :=
  fun settings => (Ls.set_ResolveChildren resolve settings, None).

Definition UseCumulativeSize (use : bool) : UnixfsLsOption :=
  fun settings => (Ls.set_UseCumulativeSize use settings, None).

Definition Parents (parents : bool) : UnixfsMkdirOption :=
  fun settings => (Mkdir.set_Parents parents settings, None).

Definition MkdirCidVersion (cidVer : Z) : UnixfsMkdirOption :=
  fun settings => (Mkdir.set_CidVersion cidVer settings, None).

Definition MkdirHash (mhtype : Z) : UnixfsMkdirOption :=
  fun settings => (Mkdir.set_MhType mhtype settings, None).

Definition Recursive (recursive : bool) : UnixfsRmOption :=
  fun settings => (Rm.set_Recursive recursive settings, None).

Definition Force (force : bool) : UnixfsRmOption :=
  fun settings => (Rm.set_Force force settings, None).

Definition CpParents (parent : bool) : UnixfsCpOption :=
  fun settings => (Cp.set_Parents parent settings, None).

Definition Offset (offset : Z) : UnixfsReadOption :=
  fun settings => (Read.set_Offset offset settings, None).

Definition Count (count : Z) : UnixfsReadOption :=
  fun settings => (Read.set_Count count settings, None).

Definition Format (format : string) : UnixfsStatOption :=
  fun settings => (Stat.set_Format format settings, None).

Definition StatHash (hash : bool) : UnixfsStatOption :=
  fun settings => (Stat.set_Hash hash settings, None).

Definition StatSize (size : bool) : UnixfsStatOption :=
  fun settings => (Stat.set_Size size settings, None).

Definition WithLocal (withLocal : bool) : UnixfsStatOption :=
  fun settings => (Stat.set_WithLocal withLocal settings, None).

Definition WriteOffset (offset : Z) : UnixfsWriteOption :=
  fun settings => (Write.set_Offset offset settings, None).

Definition Create (create : bool) : UnixfsWriteOption :=
  fun settings => (Write.set_Create create settings, None).

Definition WriteParents (parents : bool) : UnixfsWriteOption :=
  fun settings => (Write.set_Parents parents settings, None).

Definition Truncate (truncate : bool) : UnixfsWriteOption :=
  fun settings => (Write.set_Truncate truncate settings, None).

Definition WriteRawLeaves (rawLeaves : bool) : UnixfsWriteOption :=
  fun settings => (Write.set_RawLeaves rawLeaves settings, None).

Definition WriteCount (count : Z) : UnixfsWriteOption :=
  fun settings => (Write.set_Count count settings, None).

Definition WriteCidVersion (cidVersion : Z) : UnixfsWriteOption :=
  fun settings => (Write.set_CidVersion cidVersion settings, None).

Definition WriteHash (mhtype : Z) : UnixfsWriteOption :=
  fun settings => (Write.set_MhType mhtype settings, None).

End Unixfs.

(** ** Resolvers *)

(** The loop [for _, opt := range opts] that every resolver starts with:
    the options are run in order on the record, and the first error stops
    the loop. *)
Fixpoint applyOpts {T : Type} (opts : list (T -> T * option error))
    (options : T) : T * option error :=
  match opts with
  | [] => (options, None)
  | opt :: rest =>
      match opt options with
      | (options, Some err) => (options, Some err)
      | (options, None) => applyOpts rest options
      end
  end.

Definition defaultAddSettings : UnixfsAddSettings :=
  {| Add.CidVersion := -1;
     Add.MhType := mh.SHA2_256;
     Add.Inline := false;
     Add.InlineLimit := 32;
     Add.RawLeaves := false;
     Add.RawLeavesSet := false;
     Add.Chunker := "size-262144";
     Add.Layout := BalancedLayout;
     Add.Pin := false;
     Add.OnlyHash := false;
     Add.FsCache := false;
     Add.NoCopy := false;
     Add.Events := None;
     Add.Silent := false;
     Add.Progress := false;
     Add.ToFiles := EmptyString |}.

Definition UnixfsAddOptions (opts : list UnixfsAddOption)
    : option UnixfsAddSettings * cid.Prefix * option error :=
  let options := defaultAddSettings in
  match applyOpts opts options with
  | (_, Some err) => (None, cid.zero, Some err)
  | (options, None) =>
  (* nocopy -> rawblocks *)
  match
    (if Add.NoCopy options && negb (Add.RawLeaves options) then
       (* fixed? *)
       if Add.RawLeavesSet options then inl ConflictingOption
       (* No, satisfy mandatory constraint. *)
       else inr (Add.set_RawLeaves true options)
     else inr options)
  with
  | inl err => (None, cid.zero, Some err)
  | inr options =>
  (* (hash != "sha2-256") -> CIDv1 *)
  match
    (if negb (Add.MhType options =? mh.SHA2_256) then
       match Add.CidVersion options with
       | 0 => inl UnsupportedCombination
       | 1 | -1 => inr (Add.set_CidVersion 1 options)
       | _ => inl (UnknownCidVersion (Add.CidVersion options))
       end
     else if Add.CidVersion options <? 0 then
       (* Default to CIDv0 *)
       inr (Add.set_CidVersion 0 options)
     else inr options)
  with
  | inl err => (None, cid.zero, Some err)
  | inr options =>
  (* cidV1 -> raw blocks (by default) *)
  let options :=
    if (Add.CidVersion options >? 0) && negb (Add.RawLeavesSet options)
    then Add.set_RawLeaves true options
    else options in
  match dag.PrefixForCidVersion (Add.CidVersion options) with
  | (_, Some err) => (None, cid.zero, Some err)
  | (prefix, None) =>
      let prefix :=
        {| cid.Version := cid.Version prefix; cid.Codec := cid.Codec prefix;
           cid.MhType := Add.MhType options;
           cid.MhLength := cid.MhLength prefix |} in
      let prefix :=
        {| cid.Version := cid.Version prefix; cid.Codec := cid.Codec prefix;
           cid.MhType := cid.MhType prefix; cid.MhLength := -1 |} in
      (Some options, prefix, None)
  end end end end.

Definition defaultWriteSettings : UnixfsWriteSettings :=
  {| Write.CidVersion := -1;
     Write.MhType := mh.SHA2_256;
     Write.Offset := 0;
     Write.Create := false;
     Write.Parents := false;
     Write.Truncate := false;
     Write.Count := 0;
     Write.RawLeaves := false |}.

Definition UnixfsWriteOptions (opts : list UnixfsWriteOption)
    : option UnixfsWriteSettings * cid.Prefix * option error :=
  let options := defaultWriteSettings in
  match applyOpts opts options with
  | (_, Some err) => (None, cid.zero, Some err)
  | (options, None) =>
  (* (hash != "sha2-256") -> CIDv1 *)
  match
    (if negb (Write.MhType options =? mh.SHA2_256) then
       match Write.CidVersion options with
       | 0 => inl UnsupportedCombination
       | 1 | -1 => inr (Write.set_CidVersion 1 options)
       | _ => inl (UnknownCidVersion (Write.CidVersion options))
       end
     else if Write.CidVersion options <? 0 then
       (* Default to CIDv0 *)
       inr (Write.set_CidVersion 0 options)
     else inr options)
  with
  | inl err => (None, cid.zero, Some err)
  | inr options =>
  (* cidV1 -> raw blocks (by default) *)
  let options :=
    if (Write.CidVersion options >? 0) && negb (Write.RawLeaves options)
    then Write.set_RawLeaves true options
    else options in
  match dag.PrefixForCidVersion (Write.CidVersion options) with
  | (_, Some err) => (None, cid.zero, Some err)
  | (prefix, None) =>
      let prefix :=
        {| cid.Version := cid.Version prefix; cid.Codec := cid.Codec prefix;
           cid.MhType := Write.MhType options;
           cid.MhLength := cid.MhLength prefix |} in
      let prefix :=
        {| cid.Version := cid.Version prefix; cid.Codec := cid.Codec prefix;
           cid.MhType := cid.MhType prefix; cid.MhLength := -1 |} in
      (Some options, prefix, None)
  end end end.

(** The composite literal of [UnixfsLsOptions] names [ResolveChildren]
    only; [UseCumulativeSize] has the zero value of [bool]. *)
Definition defaultLsSettings : UnixfsLsSettings :=
  {| Ls.ResolveChildren := true;
     Ls.UseCumulativeSize := false |}.

Definition UnixfsLsOptions (opts : list UnixfsLsOption)
    : option UnixfsLsSettings * option error :=
  let options := defaultLsSettings in
  match applyOpts opts options with
  | (_, Some err) => (None, Some err)
  | (options, None) => (Some options, None)
  end.

Definition defaultStatSettings : UnixfsStatSettings :=
  {| Stat.Format := EmptyString;
     Stat.Hash := false;
     Stat.Size := false;
     Stat.WithLocal := false |}.

Definition UnixfsStatOptions (opts : list UnixfsStatOption)
    : option UnixfsStatSettings * option error :=
  let options := defaultStatSettings in
  match applyOpts opts options with
  | (_, Some err) => (None, Some err)
  | (options, None) => (Some options, None)
  end.

Definition defaultReadSettings : UnixfsReadSettings :=
  {| Read.Offset := 0;
     Read.Count := 0 |}.

Definition UnixfsReadOptions (opts : list UnixfsReadOption)
    : option UnixfsReadSettings * option error :=
  let options := defaultReadSettings in
  match applyOpts opts options with
  | (_, Some err) => (None, Some err)
  | (options, None) => (Some options, None)
  end.

Definition defaultCpSettings : UnixfsCpSettings :=
  {| Cp.Parents := false |}.

Definition UnixfsCpOptions (opts : list UnixfsCpOption)
    : option UnixfsCpSettings * option error :=
  let options := defaultCpSettings in
  match applyOpts opts options with
  | (_, Some err) => (None, Some err)
  | (options, None) => (Some options, None)
  end.

Definition defaultRmSettings : UnixfsRmSettings :=
  {| Rm.Recursive := false;
     Rm.Force := false |}.

Definition UnixfsRmOptions (opts : list UnixfsRmOption)
    : option UnixfsRmSettings * option error :=
  let options := defaultRmSettings in
  match applyOpts opts options with
  | (_, Some err) => (None, Some err)
  | (options, None) => (Some options, None)
  end.

Definition defaultMkdirSettings : UnixfsMkdirSettings :=
  {| Mkdir.Parents := false;
     Mkdir.CidVersion := -1;
     Mkdir.MhType := mh.SHA2_256 |}.

Definition UnixfsMkdirOptions (opts : list UnixfsMkdirOption)
    : option UnixfsMkdirSettings * cid.Prefix * option error :=
  let options := defaultMkdirSettings in
  match applyOpts opts options with
  | (_, Some err) => (None, cid.zero, Some err)
  | (options, None) =>
  (* (hash != "sha2-256") -> CIDv1 *)
  match
    (if negb (Mkdir.MhType options =? mh.SHA2_256) then
       match Mkdir.CidVersion options with
       | 0 => inl UnsupportedCombination
       | 1 | -1 => inr (Mkdir.set_CidVersion 1 options)
       | _ => inl (UnknownCidVersion (Mkdir.CidVersion options))
       end
     else if Mkdir.CidVersion options <? 0 then
       (* Default to CIDv0 *)
       inr (Mkdir.set_CidVersion 0 options)
     else inr options)
  with
  | inl err => (None, cid.zero, Some err)
  | inr options =>
  match dag.PrefixForCidVersion (Mkdir.CidVersion options) with
  | (_, Some err) => (None, cid.zero, Some err)
  | (prefix, None) =>
      let prefix :=
        {| cid.Version := cid.Version prefix; cid.Codec := cid.Codec prefix;
           cid.MhType := Mkdir.MhType options;
           cid.MhLength := cid.MhLength prefix |} in
      let prefix :=
        {| cid.Version := cid.Version prefix; cid.Codec := cid.Codec prefix;
           cid.MhType := cid.MhType prefix; cid.MhLength := -1 |} in
      (Some options, prefix, None)
  end end end.

(** ** Option sequences built from the constructors *)

(** The value a field has after a sequence of constructor calls: the
    argument of the last call that [sel] selects, or [d] when there is
    none. *)
Definition lastArg {C A : Type} (sel : C -> option A) (calls : list C)
    (d : A) : A :=
  fold_left (fun acc c => match sel c with Some a => a | None => acc end)
    calls d.

(** The calls of the Add option constructors, and the option each one
    builds. *)
Inductive UnixfsAddCall : Type :=
  | Add_CidVersion (version : Z)
  | Add_Hash (mhtype : Z)
  | Add_RawLeaves (enable : bool)
  | Add_Inline (enable : bool)
  | Add_InlineLimit (limit : Z)
  | Add_Chunker (chunker : string)
  | Add_Layout (layout : Layout)
  | Add_Pin (pin : bool)
  | Add_HashOnly (hashOnly : bool)
  | Add_Events (sink : option chan)
  | Add_Silent (silent : bool)
  | Add_Progress (enable : bool)
  | Add_ToFiles (path : string)
  | Add_FsCache (enable : bool)
  | Add_Nocopy (enable : bool).

Definition addOption (c : UnixfsAddCall) : UnixfsAddOption :=
  match c with
  | Add_CidVersion version => Unixfs.CidVersion version
  | Add_Hash mhtype => Unixfs.Hash mhtype
  | Add_RawLeaves enable => Unixfs.RawLeaves enable
  | Add_Inline enable => Unixfs.Inline enable
  | Add_InlineLimit limit => Unixfs.InlineLimit limit
  | Add_Chunker chunker => Unixfs.Chunker chunker
  | Add_Layout layout => Unixfs.Layout layout
  | Add_Pin pin => Unixfs.Pin pin
  | Add_HashOnly hashOnly => Unixfs.HashOnly hashOnly
  | Add_Events sink => Unixfs.Events sink
  | Add_Silent silent => Unixfs.Silent silent
  | Add_Progress enable => Unixfs.Progress enable
  | Add_ToFiles path => Unixfs.ToFiles path
  | Add_FsCache enable => Unixfs.FsCache enable
  | Add_Nocopy enable => Unixfs.Nocopy enable
  end.

Definition arg_Add_CidVersion (c : UnixfsAddCall) : option Z :=
  match c with Add_CidVersion version => Some version | _ => None end.

Definition arg_Add_Hash (c : UnixfsAddCall) : option Z :=
  match c with Add_Hash mhtype => Some mhtype | _ => None end.

Definition arg_Add_RawLeaves (c : UnixfsAddCall) : option bool :=
  match c with Add_RawLeaves enable => Some enable | _ => None end.

Definition arg_Add_Inline (c : UnixfsAddCall) : option bool :=
  match c with Add_Inline enable => Some enable | _ => None end.

Definition arg_Add_InlineLimit (c : UnixfsAddCall) : option Z :=
  match c with Add_InlineLimit limit => Some limit | _ => None end.

Definition arg_Add_Chunker (c : UnixfsAddCall) : option string :=
  match c with Add_Chunker chunker => Some chunker | _ => None end.

Definition arg_Add_Layout (c : UnixfsAddCall) : option Layout :=
  match c with Add_Layout layout => Some layout | _ => None end.

Definition arg_Add_Pin (c : UnixfsAddCall) : option bool :=
  match c with Add_Pin pin => Some pin | _ => None end.

Definition arg_Add_HashOnly (c : UnixfsAddCall) : option bool :=
  match c with Add_HashOnly hashOnly => Some hashOnly | _ => None end.

Definition arg_Add_Events (c : UnixfsAddCall) : option (option chan) :=
  match c with Add_Events sink => Some sink | _ => None end.

Definition arg_Add_Silent (c : UnixfsAddCall) : option bool :=
  match c with Add_Silent silent => Some silent | _ => None end.

Definition arg_Add_Progress (c : UnixfsAddCall) : option bool :=
  match c with Add_Progress enable => Some enable | _ => None end.

Definition arg_Add_ToFiles (c : UnixfsAddCall) : option string :=
  match c with Add_ToFiles path => Some path | _ => None end.

Definition arg_Add_FsCache (c : UnixfsAddCall) : option bool :=
  match c with Add_FsCache enable => Some enable | _ => None end.

Definition arg_Add_Nocopy (c : UnixfsAddCall) : option bool :=
  match c with Add_Nocopy enable => Some enable | _ => None end.

Definition sets_RawLeaves (c : UnixfsAddCall) : bool :=
  match c with Add_RawLeaves _ => true | _ => false end.

(** The record that [calls] leave when they run on [s0], field by field. *)
Definition addLastWins (calls : list UnixfsAddCall)
    (s0 : UnixfsAddSettings) : UnixfsAddSettings :=
  {| Add.CidVersion :=
       lastArg arg_Add_CidVersion calls (Add.CidVersion s0);
     Add.MhType :=
       lastArg arg_Add_Hash calls (Add.MhType s0);
     Add.Inline :=
       lastArg arg_Add_Inline calls (Add.Inline s0);
     Add.InlineLimit :=
       lastArg arg_Add_InlineLimit calls (Add.InlineLimit s0);
     Add.RawLeaves :=
       lastArg arg_Add_RawLeaves calls (Add.RawLeaves s0);
     Add.RawLeavesSet :=
       if existsb sets_RawLeaves calls then true else Add.RawLeavesSet s0;
     Add.Chunker :=
       lastArg arg_Add_Chunker calls (Add.Chunker s0);
     Add.Layout :=
       lastArg arg_Add_Layout calls (Add.Layout s0);
     Add.Pin :=
       lastArg arg_Add_Pin calls (Add.Pin s0);
     Add.OnlyHash :=
       lastArg arg_Add_HashOnly calls (Add.OnlyHash s0);
     Add.FsCache :=
       lastArg arg_Add_FsCache calls (Add.FsCache s0);
     Add.NoCopy :=
       lastArg arg_Add_Nocopy calls (Add.NoCopy s0);
     Add.Events :=
       lastArg arg_Add_Events calls (Add.Events s0);
     Add.Silent :=
       lastArg arg_Add_Silent calls (Add.Silent s0);
     Add.Progress :=
       lastArg arg_Add_Progress calls (Add.Progress s0);
     Add.ToFiles :=
       lastArg arg_Add_ToFiles calls (Add.ToFiles s0) |}.

(** The calls of the Ls option constructors, and the option each one
    builds. *)
Inductive UnixfsLsCall : Type :=
  | Ls_ResolveChildren (resolve : bool)
  | Ls_UseCumulativeSize (use : bool).

Definition lsOption (c : UnixfsLsCall) : UnixfsLsOption :=
  match c with
  | Ls_ResolveChildren resolve => Unixfs.ResolveChildren resolve
  | Ls_UseCumulativeSize use => Unixfs.UseCumulativeSize use
  end.

Definition arg_Ls_ResolveChildren (c : UnixfsLsCall) : option bool :=
  match c with Ls_ResolveChildren resolve => Some resolve | _ => None end.

Definition arg_Ls_UseCumulativeSize (c : UnixfsLsCall) : option bool :=
  match c with Ls_UseCumulativeSize use => Some use | _ => None end.

(** The record that [calls] leave when they run on [s0], field by field. *)
Definition lsLastWins (calls : list UnixfsLsCall)
    (s0 : UnixfsLsSettings) : UnixfsLsSettings :=
  {| Ls.ResolveChildren :=
       lastArg arg_Ls_ResolveChildren calls (Ls.ResolveChildren s0);
     Ls.UseCumulativeSize :=
       lastArg arg_Ls_UseCumulativeSize calls (Ls.UseCumulativeSize s0) |}.

(** The calls of the Mkdir option constructors, and the option each one
    builds. *)
Inductive UnixfsMkdirCall : Type :=
  | Mkdir_Parents (parents : bool)
  | Mkdir_MkdirCidVersion (cidVer : Z)
  | Mkdir_MkdirHash (mhtype : Z).

Definition mkdirOption (c : UnixfsMkdirCall) : UnixfsMkdirOption :=
  match c with
  | Mkdir_Parents parents => Unixfs.Parents parents
  | Mkdir_MkdirCidVersion cidVer => Unixfs.MkdirCidVersion cidVer
  | Mkdir_MkdirHash mhtype => Unixfs.MkdirHash mhtype
  end.

Definition arg_Mkdir_Parents (c : UnixfsMkdirCall) : option bool :=
  match c with Mkdir_Parents parents => Some parents | _ => None end.

Definition arg_Mkdir_MkdirCidVersion (c : UnixfsMkdirCall) : option Z :=
  match c with Mkdir_MkdirCidVersion cidVer => Some cidVer | _ => None end.

Definition arg_Mkdir_MkdirHash (c : UnixfsMkdirCall) : option Z :=
  match c with Mkdir_MkdirHash mhtype => Some mhtype | _ => None end.

(** The record that [calls] leave when they run on [s0], field by field. *)
Definition mkdirLastWins (calls : list UnixfsMkdirCall)
    (s0 : UnixfsMkdirSettings) : UnixfsMkdirSettings :=
  {| Mkdir.Parents :=
       lastArg arg_Mkdir_Parents calls (Mkdir.Parents s0);
     Mkdir.CidVersion :=
       lastArg arg_Mkdir_MkdirCidVersion calls (Mkdir.CidVersion s0);
     Mkdir.MhType :=
       lastArg arg_Mkdir_MkdirHash calls (Mkdir.MhType s0) |}.

(** The calls of the Rm option constructors, and the option each one
    builds. *)
Inductive UnixfsRmCall : Type :=
  | Rm_Recursive (recursive : bool)
  | Rm_Force (force : bool).

Definition rmOption (c : UnixfsRmCall) : UnixfsRmOption :=
  match c with
  | Rm_Recursive recursive => Unixfs.Recursive recursive
  | Rm_Force force => Unixfs.Force force
  end.

Definition arg_Rm_Recursive (c : UnixfsRmCall) : option bool :=
  match c with Rm_Recursive recursive => Some recursive | _ => None end.

Definition arg_Rm_Force (c : UnixfsRmCall) : option bool :=
  match c with Rm_Force force => Some force | _ => None end.

(** The record that [calls] leave when they run on [s0], field by field. *)
Definition rmLastWins (calls : list UnixfsRmCall)
    (s0 : UnixfsRmSettings) : UnixfsRmSettings :=
  {| Rm.Recursive :=
       lastArg arg_Rm_Recursive calls (Rm.Recursive s0);
     Rm.Force :=
       lastArg arg_Rm_Force calls (Rm.Force s0) |}.

(** The calls of the Cp option constructors, and the option each one
    builds. *)
Inductive UnixfsCpCall : Type :=
  | Cp_CpParents (parent : bool).

Definition cpOption (c : UnixfsCpCall) : UnixfsCpOption :=
  match c with
  | Cp_CpParents parent => Unixfs.CpParents parent
  end.

Definition arg_Cp_CpParents (c : UnixfsCpCall) : option bool :=
  match c with Cp_CpParents parent => Some parent end.

(** The record that [calls] leave when they run on [s0], field by field. *)
Definition cpLastWins (calls : list UnixfsCpCall)
    (s0 : UnixfsCpSettings) : UnixfsCpSettings :=
  {| Cp.Parents :=
       lastArg arg_Cp_CpParents calls (Cp.Parents s0) |}.

(** The calls of the Read option constructors, and the option each one
    builds. *)
Inductive UnixfsReadCall : Type :=
  | Read_Offset (offset : Z)
  | Read_Count (count : Z).

Definition readOption (c : UnixfsReadCall) : UnixfsReadOption :=
  match c with
  | Read_Offset offset => Unixfs.Offset offset
  | Read_Count count => Unixfs.Count count
  end.

Definition arg_Read_Offset (c : UnixfsReadCall) : option Z :=
  match c with Read_Offset offset => Some offset | _ => None end.

Definition arg_Read_Count (c : UnixfsReadCall) : option Z :=
  match c with Read_Count count => Some count | _ => None end.

(** The record that [calls] leave when they run on [s0], field by field. *)
Definition readLastWins (calls : list UnixfsReadCall)
    (s0 : UnixfsReadSettings) : UnixfsReadSettings :=
  {| Read.Offset :=
       lastArg arg_Read_Offset calls (Read.Offset s0);
     Read.Count :=
       lastArg arg_Read_Count calls (Read.Count s0) |}.

(** The calls of the Stat option constructors, and the option each one
    builds. *)
Inductive UnixfsStatCall : Type :=
  | Stat_Format (format : string)
  | Stat_StatHash (hash : bool)
  | Stat_StatSize (size : bool)
  | Stat_WithLocal (withLocal : bool).

Definition statOption (c : UnixfsStatCall) : UnixfsStatOption :=
  match c with
  | Stat_Format format => Unixfs.Format format
  | Stat_StatHash hash => Unixfs.StatHash hash
  | Stat_StatSize size => Unixfs.StatSize size
  | Stat_WithLocal withLocal => Unixfs.WithLocal withLocal
  end.

Definition arg_Stat_Format (c : UnixfsStatCall) : option string :=
  match c with Stat_Format format => Some format | _ => None end.

Definition arg_Stat_StatHash (c : UnixfsStatCall) : option bool :=
  match c with Stat_StatHash hash => Some hash | _ => None end.

Definition arg_Stat_StatSize (c : UnixfsStatCall) : option bool :=
  match c with Stat_StatSize size => Some size | _ => None end.

Definition arg_Stat_WithLocal (c : UnixfsStatCall) : option bool :=
  match c with Stat_WithLocal withLocal => Some withLocal | _ => None end.

(** The record that [calls] leave when they run on [s0], field by field. *)
Definition statLastWins (calls : list UnixfsStatCall)
    (s0 : UnixfsStatSettings) : UnixfsStatSettings :=
  {| Stat.Format :=
       lastArg arg_Stat_Format calls (Stat.Format s0);
     Stat.Hash :=
       lastArg arg_Stat_StatHash calls (Stat.Hash s0);
     Stat.Size :=
       lastArg arg_Stat_StatSize calls (Stat.Size s0);
     Stat.WithLocal :=
       lastArg arg_Stat_WithLocal calls (Stat.WithLocal s0) |}.

(** The calls of the Write option constructors, and the option each one
    builds. *)
Inductive UnixfsWriteCall : Type :=
  | Write_WriteOffset (offset : Z)
  | Write_Create (create : bool)
  | Write_WriteParents (parents : bool)
  | Write_Truncate (truncate : bool)
  | Write_WriteRawLeaves (rawLeaves : bool)
  | Write_WriteCount (count : Z)
  | Write_WriteCidVersion (cidVersion : Z)
  | Write_WriteHash (mhtype : Z).

Definition writeOption (c : UnixfsWriteCall) : UnixfsWriteOption :=
  match c with
  | Write_WriteOffset offset => Unixfs.WriteOffset offset
  | Write_Create create => Unixfs.Create create
  | Write_WriteParents parents => Unixfs.WriteParents parents
  | Write_Truncate truncate => Unixfs.Truncate truncate
  | Write_WriteRawLeaves rawLeaves => Unixfs.WriteRawLeaves rawLeaves
  | Write_WriteCount count => Unixfs.WriteCount count
  | Write_WriteCidVersion cidVersion => Unixfs.WriteCidVersion cidVersion
  | Write_WriteHash mhtype => Unixfs.WriteHash mhtype
  end.

Definition arg_Write_WriteOffset (c : UnixfsWriteCall) : option Z :=
  match c with Write_WriteOffset offset => Some offset | _ => None end.

Definition arg_Write_Create (c : UnixfsWriteCall) : option bool :=
  match c with Write_Create create => Some create | _ => None end.

Definition arg_Write_WriteParents (c : UnixfsWriteCall) : option bool :=
  match c with Write_WriteParents parents => Some parents | _ => None end.

Definition arg_Write_Truncate (c : UnixfsWriteCall) : option bool :=
  match c with Write_Truncate truncate => Some truncate | _ => None end.

Definition arg_Write_WriteRawLeaves (c : UnixfsWriteCall) : option bool :=
  match c with Write_WriteRawLeaves rawLeaves => Some rawLeaves | _ => None end.

Definition arg_Write_WriteCount (c : UnixfsWriteCall) : option Z :=
  match c with Write_WriteCount count => Some count | _ => None end.

Definition arg_Write_WriteCidVersion (c : UnixfsWriteCall) : option Z :=
  match c with Write_WriteCidVersion cidVersion => Some cidVersion | _ => None
  end.

Definition arg_Write_WriteHash (c : UnixfsWriteCall) : option Z :=
  match c with Write_WriteHash mhtype => Some mhtype | _ => None end.

(** The record that [calls] leave when they run on [s0], field by field. *)
Definition writeLastWins (calls : list UnixfsWriteCall)
    (s0 : UnixfsWriteSettings) : UnixfsWriteSettings :=
  {| Write.Offset :=
       lastArg arg_Write_WriteOffset calls (Write.Offset s0);
     Write.Create :=
       lastArg arg_Write_Create calls (Write.Create s0);
     Write.Parents :=
       lastArg arg_Write_WriteParents calls (Write.Parents s0);
     Write.Truncate :=
       lastArg arg_Write_Truncate calls (Write.Truncate s0);
     Write.Count :=
       lastArg arg_Write_WriteCount calls (Write.Count s0);
     Write.RawLeaves :=
       lastArg arg_Write_WriteRawLeaves calls (Write.RawLeaves s0);
     Write.CidVersion :=
       lastArg arg_Write_WriteCidVersion calls (Write.CidVersion s0);
     Write.MhType :=
       lastArg arg_Write_WriteHash calls (Write.MhType s0) |}.

(** The constructor a call uses, by its place among the methods of
    [Unixfs] for its settings record; each constructor assigns a field of
    its own, so two calls with different numbers assign different
    fields. *)
Definition addCallCtor (c : UnixfsAddCall) : nat :=
  match c with
  | Add_CidVersion _ => 0
  | Add_Hash _ => 1
  | Add_RawLeaves _ => 2
  | Add_Inline _ => 3
  | Add_InlineLimit _ => 4
  | Add_Chunker _ => 5
  | Add_Layout _ => 6
  | Add_Pin _ => 7
  | Add_HashOnly _ => 8
  | Add_Events _ => 9
  | Add_Silent _ => 10
  | Add_Progress _ => 11
  | Add_ToFiles _ => 12
  | Add_FsCache _ => 13
  | Add_Nocopy _ => 14
  end%nat.

Definition writeCallCtor (c : UnixfsWriteCall) : nat :=
  match c with
  | Write_WriteOffset _ => 0
  | Write_Create _ => 1
  | Write_WriteParents _ => 2
  | Write_Truncate _ => 3
  | Write_WriteRawLeaves _ => 4
  | Write_WriteCount _ => 5
  | Write_WriteCidVersion _ => 6
  | Write_WriteHash _ => 7
  end%nat.

Definition mkdirCallCtor (c : UnixfsMkdirCall) : nat :=
  match c with
  | Mkdir_Parents _ => 0
  | Mkdir_MkdirCidVersion _ => 1
  | Mkdir_MkdirHash _ => 2
  end%nat.

(** ** File types (core/coreiface/unixfs.go) *)

Module iface.

(** [type FileType int32], with the constants that [iota] numbers from
    0. *)
Definition FileType : Type := Z.

Definition TUnknown : FileType := 0.
Definition TFile : FileType := 1.
Definition TDirectory : FileType := 2.
Definition TSymlink : FileType := 3.

Module FileType.

(** The method [String] of [FileType]. *)
Definition String (t : iface.FileType) : string :=
  match t with
  | 0 => "unknown"
  | 1 => "file"
  | 2 => "directory"
  | 3 => "symlink"
  | _ => "<unknown file type>"
  end.

End FileType.

End iface.

(** * Properties *)

(** ** Tactics *)

(** Case analysis on the scrutinee of a [match] or [if] of the goal or of
    a hypothesis. *)
Ltac break_match :=
  match goal with
  | H : context [match ?x with _ => _ end] |- _ => destruct x eqn:?
  | |- context [match ?x with _ => _ end] => destruct x eqn:?
  end.

(** Runs a resolver symbolically down to each of its return statements. *)
Ltac run_resolver :=
  cbv beta delta [UnixfsAddOptions UnixfsWriteOptions UnixfsMkdirOptions
                  dag.PrefixForCidVersion] in *;
  cbv zeta in *;
  repeat (break_match; cbn [fst snd] in *; try discriminate).

(** Reduces the projections and setters of the settings records. *)
Ltac simpl_settings :=
  cbn [Add.CidVersion Add.MhType Add.RawLeaves Add.RawLeavesSet Add.NoCopy
       Add.set_CidVersion Add.set_RawLeaves
       Write.CidVersion Write.MhType Write.RawLeaves
       Write.set_CidVersion Write.set_RawLeaves
       Mkdir.CidVersion Mkdir.MhType Mkdir.Parents Mkdir.set_CidVersion
       cid.Version cid.Codec cid.MhType cid.MhLength
       andb orb negb fst snd] in *.

(** The cases of a CID version that the resolvers tell apart: 0, 1, -1 and
    the rest. *)
Ltac case_version ver := destruct ver as [|[?|?|]|[?|?|]].

(** ** The option loop *)

Lemma applyOpts_app {T : Type} (l1 l2 : list (T -> T * option error))
    (s0 s1 : T) :
  applyOpts l1 s0 = (s1, None) ->
  applyOpts (l1 ++ l2) s0 = applyOpts l2 s1.
Proof.
  revert s0. induction l1 as [|opt l1 IH]; intros s0 H.
  - cbn in H. now inversion H.
  - cbn in *. destruct (opt s0) as [s [e|]]; [discriminate|].
    now apply IH.
Qed.

Lemma applyOpts_app_error {T : Type} (l1 l2 : list (T -> T * option error))
    (s0 s1 : T) (e : error) :
  applyOpts l1 s0 = (s1, Some e) ->
  applyOpts (l1 ++ l2) s0 = (s1, Some e).
Proof.
  revert s0. induction l1 as [|opt l1 IH]; intros s0 H.
  - discriminate.
  - cbn in *. destruct (opt s0) as [s [e'|]]; [assumption|].
    now apply IH.
Qed.

(** [lastArg] is the argument of the last selected call. *)
Lemma lastArg_snoc {C A : Type} (sel : C -> option A) (calls : list C)
    (c : C) (d : A) :
  lastArg sel (calls ++ [c]) d =
  match sel c with Some a => a | None => lastArg sel calls d end.
Proof.
  unfold lastArg. now rewrite fold_left_app.
Qed.

Lemma lastArg_unselected {C A : Type} (sel : C -> option A) (calls : list C)
    (d : A) :
  (forall c, In c calls -> sel c = None) -> lastArg sel calls d = d.
Proof.
  unfold lastArg. revert d.
  induction calls as [|c calls IH]; intros d H; [reflexivity|].
  cbn. rewrite (H c (or_introl eq_refl)).
  apply IH. intros c' Hc'. apply H. now right.
Qed.

(** ** Rejected configurations *)

(** C9: the resolvers are pure functions of the option sequence, and
    whenever [UnixfsAddOptions], [UnixfsWriteOptions] or
    [UnixfsMkdirOptions] returns a non-nil error, the settings pointer it
    returns is nil and the prefix is the zero [cid.Prefix]. *)
Theorem C9_error_returns_nil_and_zero_prefix :
  (forall (opts : list UnixfsAddOption) o p e,
     UnixfsAddOptions opts = (o, p, Some e) -> o = None /\ p = cid.zero) /\
  (forall (opts : list UnixfsWriteOption) o p e,
     UnixfsWriteOptions opts = (o, p, Some e) -> o = None /\ p = cid.zero) /\
  (forall (opts : list UnixfsMkdirOption) o p e,
     UnixfsMkdirOptions opts = (o, p, Some e) -> o = None /\ p = cid.zero).
Proof.
  split; [|split]; intros opts o p e H; run_resolver; now inversion H.
Qed.

(** The rejected configuration [Hash(0x13), CidVersion(0)] of Add, and
    rejected configurations of Write and Mkdir. *)
Lemma C9_witness :
  (snd (UnixfsAddOptions [Unixfs.Hash 0x13; Unixfs.CidVersion 0])
     = Some UnsupportedCombination /\
   fst (fst (UnixfsAddOptions [Unixfs.Hash 0x13; Unixfs.CidVersion 0]))
     = None /\
   snd (fst (UnixfsAddOptions [Unixfs.Hash 0x13; Unixfs.CidVersion 0]))
     = cid.zero) /\
  (snd (UnixfsWriteOptions [Unixfs.WriteCidVersion 7])
     = Some (UnknownCidVersion 7) /\
   fst (fst (UnixfsWriteOptions [Unixfs.WriteCidVersion 7])) = None /\
   snd (fst (UnixfsWriteOptions [Unixfs.WriteCidVersion 7])) = cid.zero) /\
  (snd (UnixfsMkdirOptions [Unixfs.MkdirHash 0x13; Unixfs.MkdirCidVersion 0])
     = Some UnsupportedCombination /\
   fst (fst (UnixfsMkdirOptions
               [Unixfs.MkdirHash 0x13; Unixfs.MkdirCidVersion 0])) = None /\
   snd (fst (UnixfsMkdirOptions
               [Unixfs.MkdirHash 0x13; Unixfs.MkdirCidVersion 0]))
     = cid.zero).
Proof.
  destruct C9_error_returns_nil_and_zero_prefix as [HA [HW HM]].
  split; [|split]; (split; [reflexivity|]).
  - exact (HA [Unixfs.Hash 0x13; Unixfs.CidVersion 0] _ _
              UnsupportedCombination eq_refl).
  - exact (HW [Unixfs.WriteCidVersion 7] _ _ (UnknownCidVersion 7) eq_refl).
  - exact (HM [Unixfs.MkdirHash 0x13; Unixfs.MkdirCidVersion 0] _ _
              UnsupportedCombination eq_refl).
Defined.

(** ** Successful resolutions *)

(** What a successful [UnixfsAddOptions] returns, in terms of the record
    [s] that the option loop leaves. *)
Lemma UnixfsAddOptions_success (opts : list UnixfsAddOption) o p :
  UnixfsAddOptions opts = (o, p, None) ->
  exists s r,
    applyOpts opts defaultAddSettings = (s, None) /\
    o = Some r /\
    (Add.CidVersion r = 0 \/ Add.CidVersion r = 1) /\
    p = {| cid.Version := Add.CidVersion r; cid.Codec := cid.DagProtobuf;
           cid.MhType := Add.MhType r; cid.MhLength := -1 |} /\
    Add.MhType r = Add.MhType s /\
    Add.NoCopy r = Add.NoCopy s /\
    Add.RawLeavesSet r = Add.RawLeavesSet s /\
    Add.RawLeaves r =
      Add.RawLeaves s || Add.NoCopy s
      || (Add.CidVersion r >? 0) && negb (Add.RawLeavesSet s).
Proof.
  unfold UnixfsAddOptions. cbv zeta.
  destruct (applyOpts opts defaultAddSettings) as [s [e|]]; [discriminate|].
  intros H. exists s.
  destruct s as [ver mht inl lim raw rawset ch lay pin oh fc nc ev sil prog tf].
  simpl_settings.
  destruct nc, raw, rawset; simpl_settings; try discriminate H;
    destruct (mht =? mh.SHA2_256); simpl_settings;
    case_version ver; cbn in H; try discriminate H;
    inversion H; subst; clear H; eexists; cbn; repeat split; auto.
Qed.

Lemma UnixfsWriteOptions_success (opts : list UnixfsWriteOption) o p :
  UnixfsWriteOptions opts = (o, p, None) ->
  exists s r,
    applyOpts opts defaultWriteSettings = (s, None) /\
    o = Some r /\
    (Write.CidVersion r = 0 \/ Write.CidVersion r = 1) /\
    p = {| cid.Version := Write.CidVersion r; cid.Codec := cid.DagProtobuf;
           cid.MhType := Write.MhType r; cid.MhLength := -1 |} /\
    Write.MhType r = Write.MhType s /\
    Write.RawLeaves r = Write.RawLeaves s || (Write.CidVersion r >? 0).
Proof.
  unfold UnixfsWriteOptions. cbv zeta.
  destruct (applyOpts opts defaultWriteSettings) as [s [e|]];
    [discriminate|].
  intros H. exists s.
  destruct s as [off cr par tr cnt raw ver mht].
  simpl_settings.
  destruct (mht =? mh.SHA2_256); simpl_settings;
    case_version ver; destruct raw; cbn in H; try discriminate H;
    inversion H; subst; clear H; eexists; cbn; repeat split; auto.
Qed.

Lemma UnixfsMkdirOptions_success (opts : list UnixfsMkdirOption) o p :
  UnixfsMkdirOptions opts = (o, p, None) ->
  exists s r,
    applyOpts opts defaultMkdirSettings = (s, None) /\
    o = Some r /\
    (Mkdir.CidVersion r = 0 \/ Mkdir.CidVersion r = 1) /\
    p = {| cid.Version := Mkdir.CidVersion r; cid.Codec := cid.DagProtobuf;
           cid.MhType := Mkdir.MhType r; cid.MhLength := -1 |} /\
    Mkdir.MhType r = Mkdir.MhType s /\
    Mkdir.Parents r = Mkdir.Parents s.
Proof.
  unfold UnixfsMkdirOptions. cbv zeta.
  destruct (applyOpts opts defaultMkdirSettings) as [s [e|]];
    [discriminate|].
  intros H. exists s.
  destruct s as [par ver mht].
  simpl_settings.
  destruct (mht =? mh.SHA2_256); simpl_settings;
    case_version ver; cbn in H; try discriminate H;
    inversion H; subst; clear H; eexists; cbn; repeat split; auto.
Qed.

(** C5: when [UnixfsAddOptions], [UnixfsWriteOptions] or
    [UnixfsMkdirOptions] succeeds, the [CidVersion] of the settings it
    returns is 0 or 1: never the unset sentinel -1 and never another value;
    every other final version ends in an error. *)
Theorem C5_resolved_cid_version_is_0_or_1 :
  (forall (opts : list UnixfsAddOption) o p,
     UnixfsAddOptions opts = (o, p, None) ->
     exists r, o = Some r /\ (Add.CidVersion r = 0 \/ Add.CidVersion r = 1)) /\
  (forall (opts : list UnixfsWriteOption) o p,
     UnixfsWriteOptions opts = (o, p, None) ->
     exists r,
       o = Some r /\ (Write.CidVersion r = 0 \/ Write.CidVersion r = 1)) /\
  (forall (opts : list UnixfsMkdirOption) o p,
     UnixfsMkdirOptions opts = (o, p, None) ->
     exists r,
       o = Some r /\ (Mkdir.CidVersion r = 0 \/ Mkdir.CidVersion r = 1)).
Proof.
  split; [|split]; intros opts o p H.
  - apply UnixfsAddOptions_success in H.
    destruct H as (s & r & _ & Ho & Hv & _). now exists r.
  - apply UnixfsWriteOptions_success in H.
    destruct H as (s & r & _ & Ho & Hv & _). now exists r.
  - apply UnixfsMkdirOptions_success in H.
    destruct H as (s & r & _ & Ho & Hv & _). now exists r.
Qed.

(** Successful resolutions: Add with hash 0x13 and no version, Write with
    version 1, Mkdir with no option. *)
Lemma C5_witness :
  (snd (UnixfsAddOptions [Unixfs.Hash 0x13]) = None /\
   exists r,
     fst (fst (UnixfsAddOptions [Unixfs.Hash 0x13])) = Some r /\
     (Add.CidVersion r = 0 \/ Add.CidVersion r = 1)) /\
  (snd (UnixfsWriteOptions [Unixfs.WriteCidVersion 1]) = None /\
   exists r,
     fst (fst (UnixfsWriteOptions [Unixfs.WriteCidVersion 1])) = Some r /\
     (Write.CidVersion r = 0 \/ Write.CidVersion r = 1)) /\
  (snd (UnixfsMkdirOptions []) = None /\
   exists r,
     fst (fst (UnixfsMkdirOptions [])) = Some r /\
     (Mkdir.CidVersion r = 0 \/ Mkdir.CidVersion r = 1)).
Proof.
  destruct C5_resolved_cid_version_is_0_or_1 as [HA [HW HM]].
  split; [|split]; (split; [reflexivity|]).
  - exact (HA [Unixfs.Hash 0x13] _ _ eq_refl).
  - exact (HW [Unixfs.WriteCidVersion 1] _ _ eq_refl).
  - exact (HM [] _ _ eq_refl).
Defined.

(** C7: when [UnixfsAddOptions], [UnixfsWriteOptions] or
    [UnixfsMkdirOptions] succeeds, the prefix it returns has [MhLength]
    equal to -1, the sentinel for a length computed from the digest, and
    [MhType] equal to the hash function of the settings it returns. *)
Theorem C7_prefix_length_sentinel_and_hash :
  (forall (opts : list UnixfsAddOption) o p,
     UnixfsAddOptions opts = (o, p, None) ->
     cid.MhLength p = -1 /\
     exists r, o = Some r /\ cid.MhType p = Add.MhType r) /\
  (forall (opts : list UnixfsWriteOption) o p,
     UnixfsWriteOptions opts = (o, p, None) ->
     cid.MhLength p = -1 /\
     exists r, o = Some r /\ cid.MhType p = Write.MhType r) /\
  (forall (opts : list UnixfsMkdirOption) o p,
     UnixfsMkdirOptions opts = (o, p, None) ->
     cid.MhLength p = -1 /\
     exists r, o = Some r /\ cid.MhType p = Mkdir.MhType r).
Proof.
  split; [|split]; intros opts o p H.
  - apply UnixfsAddOptions_success in H.
    destruct H as (s & r & _ & Ho & _ & Hp & _).
    rewrite Hp. split; [reflexivity|now exists r].
  - apply UnixfsWriteOptions_success in H.
    destruct H as (s & r & _ & Ho & _ & Hp & _).
    rewrite Hp. split; [reflexivity|now exists r].
  - apply UnixfsMkdirOptions_success in H.
    destruct H as (s & r & _ & Ho & _ & Hp & _).
    rewrite Hp. split; [reflexivity|now exists r].
Qed.

(** Successful resolutions with the hash functions 0x13, 0x12 and 0x14. *)
Lemma C7_witness :
  (snd (UnixfsAddOptions [Unixfs.Hash 0x13]) = None /\
   cid.MhLength (snd (fst (UnixfsAddOptions [Unixfs.Hash 0x13]))) = -1 /\
   exists r,
     fst (fst (UnixfsAddOptions [Unixfs.Hash 0x13])) = Some r /\
     cid.MhType (snd (fst (UnixfsAddOptions [Unixfs.Hash 0x13])))
       = Add.MhType r) /\
  (snd (UnixfsWriteOptions [Unixfs.WriteCidVersion 0]) = None /\
   cid.MhLength (snd (fst (UnixfsWriteOptions [Unixfs.WriteCidVersion 0])))
     = -1 /\
   exists r,
     fst (fst (UnixfsWriteOptions [Unixfs.WriteCidVersion 0])) = Some r /\
     cid.MhType (snd (fst (UnixfsWriteOptions [Unixfs.WriteCidVersion 0])))
       = Write.MhType r) /\
  (snd (UnixfsMkdirOptions [Unixfs.MkdirHash 0x14]) = None /\
   cid.MhLength (snd (fst (UnixfsMkdirOptions [Unixfs.MkdirHash 0x14])))
     = -1 /\
   exists r,
     fst (fst (UnixfsMkdirOptions [Unixfs.MkdirHash 0x14])) = Some r /\
     cid.MhType (snd (fst (UnixfsMkdirOptions [Unixfs.MkdirHash 0x14])))
       = Mkdir.MhType r).
Proof.
  destruct C7_prefix_length_sentinel_and_hash as [HA [HW HM]].
  split; [|split]; (split; [reflexivity|]).
  - exact (HA [Unixfs.Hash 0x13] _ _ eq_refl).
  - exact (HW [Unixfs.WriteCidVersion 0] _ _ eq_refl).
  - exact (HM [Unixfs.MkdirHash 0x14] _ _ eq_refl).
Defined.

(** ** Raw leaves *)

(** C3: when [UnixfsAddOptions] succeeds with a [CidVersion] greater than
    0, the resolved [RawLeaves] is true if no option set [RawLeavesSet],
    and stays false if the options left [RawLeaves] false with
    [RawLeavesSet] true and [NoCopy] false: the explicit setting wins over
    the CIDv1 default. *)
Theorem C3_add_cidv1_raw_leaves (opts : list UnixfsAddOption)
    (s r : UnixfsAddSettings) (p : cid.Prefix) :
  applyOpts opts defaultAddSettings = (s, None) ->
  UnixfsAddOptions opts = (Some r, p, None) ->
  Add.CidVersion r > 0 ->
  (Add.RawLeavesSet s = false -> Add.RawLeaves r = true) /\
  (Add.RawLeavesSet s = true -> Add.RawLeaves s = false ->
   Add.NoCopy s = false -> Add.RawLeaves r = false).
Proof.
  intros Hloop Hres Hver.
  apply UnixfsAddOptions_success in Hres.
  destruct Hres as (s' & r' & Hloop' & Hr & _ & _ & _ & _ & _ & Hraw).
  rewrite Hloop in Hloop'.
  injection Hloop' as <-. injection Hr as <-.
  rewrite Hraw. split.
  - intros ->.
    replace (Add.CidVersion r >? 0) with true
      by (symmetry; apply Z.gtb_lt; lia).
    cbn. apply orb_true_r.
  - intros -> -> ->. cbn. apply andb_false_r.
Qed.

(** [CidVersion(1)] alone, and [CidVersion(1)] with [RawLeaves(false)]. *)
Lemma C3_witness :
  (exists r p,
     UnixfsAddOptions [Unixfs.CidVersion 1] = (Some r, p, None) /\
     Add.CidVersion r > 0 /\ Add.RawLeaves r = true) /\
  (exists r p,
     UnixfsAddOptions [Unixfs.CidVersion 1; Unixfs.RawLeaves false]
       = (Some r, p, None) /\
     Add.CidVersion r > 0 /\ Add.RawLeaves r = false).
Proof.
  split.
  - eexists. eexists. split; [reflexivity|]. split; [reflexivity|].
    refine (proj1 (C3_add_cidv1_raw_leaves [Unixfs.CidVersion 1]
                     _ _ _ eq_refl eq_refl eq_refl) eq_refl).
  - eexists. eexists. split; [reflexivity|]. split; [reflexivity|].
    refine (proj2 (C3_add_cidv1_raw_leaves
                     [Unixfs.CidVersion 1; Unixfs.RawLeaves false]
                     _ _ _ eq_refl eq_refl eq_refl)
              eq_refl eq_refl eq_refl).
Defined.

(** The sibling rule of [UnixfsWriteOptions] tests [RawLeaves] itself, as
    [UnixfsWriteSettings] has no [RawLeavesSet]: every successful
    resolution with a [CidVersion] greater than 0 has [RawLeaves] true. *)
Lemma UnixfsWriteOptions_cidv1_raw_leaves (opts : list UnixfsWriteOption)
    (r : UnixfsWriteSettings) (p : cid.Prefix) :
  UnixfsWriteOptions opts = (Some r, p, None) ->
  Write.CidVersion r > 0 ->
  Write.RawLeaves r = true.
Proof.
  intros Hres Hver.
  apply UnixfsWriteOptions_success in Hres.
  destruct Hres as (s & r' & _ & Hr & _ & _ & _ & Hraw).
  injection Hr as <-. rewrite Hraw.
  replace (Write.CidVersion r >? 0) with true
    by (symmetry; apply Z.gtb_lt; lia).
  apply orb_true_r.
Qed.

(** C4: the options [WriteCidVersion(1)], [WriteRawLeaves(false)] resolve
    successfully with [CidVersion] 1 and [RawLeaves] true, so the explicit
    false is overridden by the rule that CIDv1 implies raw leaves; the same
    options of Add, [CidVersion(1)], [RawLeaves(false)], keep [RawLeaves]
    false. *)
Theorem C4_write_raw_leaves_false_overridden :
  (exists r p,
     UnixfsWriteOptions [Unixfs.WriteCidVersion 1; Unixfs.WriteRawLeaves false]
       = (Some r, p, None) /\
     Write.CidVersion r = 1 /\ Write.RawLeaves r = true) /\
  (exists r p,
     UnixfsAddOptions [Unixfs.CidVersion 1; Unixfs.RawLeaves false]
       = (Some r, p, None) /\
     Add.CidVersion r = 1 /\ Add.RawLeaves r = false).
Proof.
  split; eexists; eexists; (split; [reflexivity|]); split; reflexivity.
Qed.

(** ** The CID version rules *)

(** C1, amended: for [UnixfsAddOptions], when the options leave a hash
    function other than sha2-256 and the no-copy rule that runs first does
    not reject them (not: [NoCopy] true, [RawLeaves] false and
    [RawLeavesSet] true), then a [CidVersion] of 0 fails with
    [UnsupportedCombination], a [CidVersion] of -1 (unset) or 1 resolves
    successfully to 1, and every other value fails with
    [UnknownCidVersion]. *)
Theorem C1_add_nonstandard_hash_cid_version (opts : list UnixfsAddOption)
    (s : UnixfsAddSettings) :
  applyOpts opts defaultAddSettings = (s, None) ->
  Add.MhType s <> mh.SHA2_256 ->
  Add.NoCopy s && negb (Add.RawLeaves s) && Add.RawLeavesSet s = false ->
  (Add.CidVersion s = 0 ->
   UnixfsAddOptions opts = (None, cid.zero, Some UnsupportedCombination)) /\
  (Add.CidVersion s = -1 \/ Add.CidVersion s = 1 ->
   exists r p,
     UnixfsAddOptions opts = (Some r, p, None) /\ Add.CidVersion r = 1) /\
  (Add.CidVersion s <> 0 -> Add.CidVersion s <> -1 ->
   Add.CidVersion s <> 1 ->
   UnixfsAddOptions opts
     = (None, cid.zero, Some (UnknownCidVersion (Add.CidVersion s)))).
Proof.
  intros Hloop Hmh Hstep1.
  unfold UnixfsAddOptions. cbv zeta. rewrite Hloop.
  apply Z.eqb_neq in Hmh.
  destruct s as [ver mht inl lim raw rawset ch lay pin oh fc nc ev sil prog tf].
  simpl_settings.
  destruct nc, raw, rawset; try discriminate Hstep1;
    simpl_settings; rewrite Hmh; simpl_settings.
  all: split; [|split].
  all: try (intros ->; reflexivity).
  all: try (intros [-> | ->]; eexists; eexists; split; reflexivity).
  all: intros H0 Hm1 H1; case_version ver; try reflexivity; congruence.
Qed.

(** The options [Hash(0x13), CidVersion(0)], [Hash(0x13)] and
    [Hash(0x13), CidVersion(2)]. *)
Lemma C1_witness :
  UnixfsAddOptions [Unixfs.Hash 0x13; Unixfs.CidVersion 0]
    = (None, cid.zero, Some UnsupportedCombination) /\
  (exists r p,
     UnixfsAddOptions [Unixfs.Hash 0x13] = (Some r, p, None) /\
     Add.CidVersion r = 1) /\
  UnixfsAddOptions [Unixfs.Hash 0x13; Unixfs.CidVersion 2]
    = (None, cid.zero, Some (UnknownCidVersion 2)).
Proof.
  split; [|split].
  - refine (proj1 (C1_add_nonstandard_hash_cid_version
                     [Unixfs.Hash 0x13; Unixfs.CidVersion 0] _
                     eq_refl _ eq_refl) eq_refl).
    cbn. discriminate.
  - refine (proj1 (proj2 (C1_add_nonstandard_hash_cid_version
                            [Unixfs.Hash 0x13] _ eq_refl _ eq_refl))
              (or_introl eq_refl)).
    cbn. discriminate.
  - refine (proj2 (proj2 (C1_add_nonstandard_hash_cid_version
                            [Unixfs.Hash 0x13; Unixfs.CidVersion 2] _
                            eq_refl _ eq_refl)) _ _ _);
      cbn; discriminate.
Defined.

(** The claim C1 as first stated fails: after the options [Hash(0x13)],
    [CidVersion(0)], [Nocopy(true)], [RawLeaves(false)] the hash function
    is not sha2-256 and [CidVersion] is 0, but the resolver fails with
    [ConflictingOption], from the no-copy rule that runs first, and not
    with [UnsupportedCombination]. *)
Lemma C1_counterexample :
  (exists s,
     applyOpts
       [Unixfs.Hash 0x13; Unixfs.CidVersion 0; Unixfs.Nocopy true;
        Unixfs.RawLeaves false] defaultAddSettings = (s, None) /\
     Add.MhType s <> mh.SHA2_256 /\ Add.CidVersion s = 0) /\
  UnixfsAddOptions
    [Unixfs.Hash 0x13; Unixfs.CidVersion 0; Unixfs.Nocopy true;
     Unixfs.RawLeaves false]
    = (None, cid.zero, Some ConflictingOption) /\
  UnixfsAddOptions
    [Unixfs.Hash 0x13; Unixfs.CidVersion 0; Unixfs.Nocopy true;
     Unixfs.RawLeaves false]
    <> (None, cid.zero, Some UnsupportedCombination).
Proof.
  split; [|split].
  - eexists. split; [reflexivity|]. split; [cbn; discriminate|reflexivity].
  - reflexivity.
  - cbn. discriminate.
Qed.

(** C6, amended: when the options leave the hash function sha2-256 and
    [CidVersion] unset (-1), [UnixfsWriteOptions] and [UnixfsMkdirOptions]
    succeed with [CidVersion] 0, and so does [UnixfsAddOptions] unless its
    no-copy rule rejects the options ([NoCopy] true, [RawLeaves] false and
    [RawLeavesSet] true), in which case it fails with
    [ConflictingOption]. *)
Theorem C6_default_cid_version_0 :
  (forall (opts : list UnixfsAddOption) s,
     applyOpts opts defaultAddSettings = (s, None) ->
     Add.MhType s = mh.SHA2_256 -> Add.CidVersion s = -1 ->
     (Add.NoCopy s && negb (Add.RawLeaves s) && Add.RawLeavesSet s = false ->
      exists r p,
        UnixfsAddOptions opts = (Some r, p, None) /\ Add.CidVersion r = 0) /\
     (Add.NoCopy s && negb (Add.RawLeaves s) && Add.RawLeavesSet s = true ->
      UnixfsAddOptions opts = (None, cid.zero, Some ConflictingOption))) /\
  (forall (opts : list UnixfsWriteOption) s,
     applyOpts opts defaultWriteSettings = (s, None) ->
     Write.MhType s = mh.SHA2_256 -> Write.CidVersion s = -1 ->
     exists r p,
       UnixfsWriteOptions opts = (Some r, p, None) /\
       Write.CidVersion r = 0) /\
  (forall (opts : list UnixfsMkdirOption) s,
     applyOpts opts defaultMkdirSettings = (s, None) ->
     Mkdir.MhType s = mh.SHA2_256 -> Mkdir.CidVersion s = -1 ->
     exists r p,
       UnixfsMkdirOptions opts = (Some r, p, None) /\
       Mkdir.CidVersion r = 0).
Proof.
  split; [|split]; intros opts s Hloop Hmh Hver.
  - unfold UnixfsAddOptions. cbv zeta. rewrite Hloop.
    destruct s as
      [ver mht inl lim raw rawset ch lay pin oh fc nc ev sil prog tf].
    simpl_settings. subst ver mht.
    destruct nc, raw, rawset; cbn; split; intros Hstep1;
      try discriminate Hstep1; try reflexivity;
      eexists; eexists; split; reflexivity.
  - unfold UnixfsWriteOptions. cbv zeta. rewrite Hloop.
    destruct s as [off cr par tr cnt raw ver mht].
    simpl_settings. subst ver mht.
    destruct raw; cbn; eexists; eexists; split; reflexivity.
  - unfold UnixfsMkdirOptions. cbv zeta. rewrite Hloop.
    destruct s as [par ver mht].
    simpl_settings. subst ver mht.
    cbn. eexists. eexists. split; reflexivity.
Qed.

(** No option at all, for the three resolvers, and the rejected options
    [Nocopy(true)], [RawLeaves(false)] of Add. *)
Lemma C6_witness :
  (exists r p, UnixfsAddOptions [] = (Some r, p, None) /\
               Add.CidVersion r = 0) /\
  UnixfsAddOptions [Unixfs.Nocopy true; Unixfs.RawLeaves false]
    = (None, cid.zero, Some ConflictingOption) /\
  (exists r p, UnixfsWriteOptions [] = (Some r, p, None) /\
               Write.CidVersion r = 0) /\
  (exists r p, UnixfsMkdirOptions [] = (Some r, p, None) /\
               Mkdir.CidVersion r = 0).
Proof.
  destruct C6_default_cid_version_0 as [HA [HW HM]].
  split; [|split; [|split]].
  - exact (proj1 (HA [] _ eq_refl eq_refl eq_refl) eq_refl).
  - exact (proj2 (HA [Unixfs.Nocopy true; Unixfs.RawLeaves false] _
                     eq_refl eq_refl eq_refl) eq_refl).
  - exact (HW [] _ eq_refl eq_refl eq_refl).
  - exact (HM [] _ eq_refl eq_refl eq_refl).
Defined.

(** The claim C6 as first stated fails for Add: after the options
    [Nocopy(true)], [RawLeaves(false)] the hash function is still sha2-256
    and [CidVersion] is still unset, but [UnixfsAddOptions] returns no
    settings, hence no [CidVersion] 0: it fails with
    [ConflictingOption]. *)
Lemma C6_counterexample :
  (exists s,
     applyOpts [Unixfs.Nocopy true; Unixfs.RawLeaves false]
       defaultAddSettings = (s, None) /\
     Add.MhType s = mh.SHA2_256 /\ Add.CidVersion s = -1) /\
  UnixfsAddOptions [Unixfs.Nocopy true; Unixfs.RawLeaves false]
    = (None, cid.zero, Some ConflictingOption) /\
  ~ (exists r p,
       UnixfsAddOptions [Unixfs.Nocopy true; Unixfs.RawLeaves false]
         = (Some r, p, None) /\ Add.CidVersion r = 0).
Proof.
  split; [|split].
  - eexists. split; [reflexivity|]. split; reflexivity.
  - reflexivity.
  - intros (r & p & H & _). discriminate H.
Qed.

(** ** No-copy *)

(** C2, amended: for [UnixfsAddOptions], when the options leave [NoCopy]
    true and [RawLeaves] false, the resolver fails with [ConflictingOption]
    if [RawLeavesSet] is true; otherwise it forces [RawLeaves] to true and
    goes on, so that it either succeeds with [RawLeaves] true or is
    rejected by the CID version rules with [UnsupportedCombination] or
    [UnknownCidVersion].  Every successful resolution with [NoCopy] true
    has [RawLeaves] true. *)
Theorem C2_add_nocopy_raw_leaves (opts : list UnixfsAddOption) :
  (forall s,
     applyOpts opts defaultAddSettings = (s, None) ->
     Add.NoCopy s = true -> Add.RawLeaves s = false ->
     (Add.RawLeavesSet s = true ->
      UnixfsAddOptions opts = (None, cid.zero, Some ConflictingOption)) /\
     (Add.RawLeavesSet s = false ->
      (exists r p,
         UnixfsAddOptions opts = (Some r, p, None) /\
         Add.RawLeaves r = true) \/
      UnixfsAddOptions opts
        = (None, cid.zero, Some UnsupportedCombination) \/
      UnixfsAddOptions opts
        = (None, cid.zero, Some (UnknownCidVersion (Add.CidVersion s))))) /\
  (forall r p,
     UnixfsAddOptions opts = (Some r, p, None) ->
     Add.NoCopy r = true -> Add.RawLeaves r = true).
Proof.
  split.
  - intros s Hloop Hnc Hraw.
    unfold UnixfsAddOptions. cbv zeta. rewrite Hloop.
    destruct s as
      [ver mht inl lim raw rawset ch lay pin oh fc nc ev sil prog tf].
    simpl_settings. subst nc raw. split; intros ->; simpl_settings.
    + reflexivity.
    + destruct (mht =? mh.SHA2_256); simpl_settings;
        case_version ver; cbn;
        first [ left; eexists; eexists; split; reflexivity
              | right; left; reflexivity
              | right; right; reflexivity ].
  - intros r p Hres Hnc.
    apply UnixfsAddOptions_success in Hres.
    destruct Hres as (s & r' & _ & Hr & _ & _ & _ & Hnc' & _ & Hraw).
    injection Hr as <-.
    rewrite Hraw, <- Hnc', Hnc.
    rewrite orb_true_r. reflexivity.
Qed.

(** The options [Nocopy(true)], [RawLeaves(false)], which are rejected,
    and [Nocopy(true)] alone, which succeeds. *)
Lemma C2_witness :
  UnixfsAddOptions [Unixfs.Nocopy true; Unixfs.RawLeaves false]
    = (None, cid.zero, Some ConflictingOption) /\
  (exists r p,
     UnixfsAddOptions [Unixfs.Nocopy true] = (Some r, p, None) /\
     Add.NoCopy r = true /\ Add.RawLeaves r = true).
Proof.
  split.
  - exact (proj1 (proj1 (C2_add_nocopy_raw_leaves
                           [Unixfs.Nocopy true; Unixfs.RawLeaves false])
                    _ eq_refl eq_refl eq_refl) eq_refl).
  - eexists. eexists. split; [reflexivity|]. split; [reflexivity|].
    exact (proj2 (C2_add_nocopy_raw_leaves [Unixfs.Nocopy true])
             _ _ eq_refl eq_refl).
Defined.

(** The claim C2 as first stated fails: after the options [Nocopy(true)],
    [Hash(0x13)], [CidVersion(0)], [NoCopy] is true, [RawLeaves] is false
    and [RawLeavesSet] is false, but the resolver does not succeed: it
    fails with [UnsupportedCombination]. *)
Lemma C2_counterexample :
  (exists s,
     applyOpts [Unixfs.Nocopy true; Unixfs.Hash 0x13; Unixfs.CidVersion 0]
       defaultAddSettings = (s, None) /\
     Add.NoCopy s = true /\ Add.RawLeaves s = false /\
     Add.RawLeavesSet s = false) /\
  UnixfsAddOptions [Unixfs.Nocopy true; Unixfs.Hash 0x13; Unixfs.CidVersion 0]
    = (None, cid.zero, Some UnsupportedCombination) /\
  ~ (exists r p,
       UnixfsAddOptions
         [Unixfs.Nocopy true; Unixfs.Hash 0x13; Unixfs.CidVersion 0]
         = (Some r, p, None)).
Proof.
  split; [|split].
  - eexists. split; [reflexivity|]. repeat split.
  - reflexivity.
  - intros (r & p & H). discriminate H.
Qed.

(** ** Listing *)

(** C10: with no options [UnixfsLsOptions] returns settings with
    [ResolveChildren] true and [UseCumulativeSize] false; passing
    [ResolveChildren(false)] turns the first off. *)
Theorem C10_ls_defaults :
  UnixfsLsOptions []
    = (Some {| Ls.ResolveChildren := true; Ls.UseCumulativeSize := false |},
       None) /\
  UnixfsLsOptions [Unixfs.ResolveChildren false]
    = (Some {| Ls.ResolveChildren := false; Ls.UseCumulativeSize := false |},
       None).
Proof.
  split; reflexivity.
Qed.

(** ** Sequences of constructor calls *)

(** Induction on the calls, with the starting record general: the first
    call changes the starting record of the rest. *)
Ltac last_wins lastWins :=
  let calls := fresh "calls" in
  let c := fresh "c" in
  let IH := fresh "IH" in
  let s0 := fresh "s0" in
  intros calls; induction calls as [|c calls IH]; intros s0;
  [ destruct s0; reflexivity
  | destruct c; cbn; rewrite IH; unfold lastWins, lastArg; cbn;
    try reflexivity ].

Lemma applyOpts_addCalls (calls : list UnixfsAddCall)
    (s0 : UnixfsAddSettings) :
  applyOpts (map addOption calls) s0 = (addLastWins calls s0, None).
Proof.
  revert calls s0. last_wins addLastWins.
  now destruct (existsb sets_RawLeaves calls).
Qed.

Lemma applyOpts_lsCalls (calls : list UnixfsLsCall) (s0 : UnixfsLsSettings) :
  applyOpts (map lsOption calls) s0 = (lsLastWins calls s0, None).
Proof. revert calls s0. last_wins lsLastWins. Qed.

Lemma applyOpts_mkdirCalls (calls : list UnixfsMkdirCall)
    (s0 : UnixfsMkdirSettings) :
  applyOpts (map mkdirOption calls) s0 = (mkdirLastWins calls s0, None).
Proof. revert calls s0. last_wins mkdirLastWins. Qed.

Lemma applyOpts_rmCalls (calls : list UnixfsRmCall) (s0 : UnixfsRmSettings) :
  applyOpts (map rmOption calls) s0 = (rmLastWins calls s0, None).
Proof. revert calls s0. last_wins rmLastWins. Qed.

Lemma applyOpts_cpCalls (calls : list UnixfsCpCall) (s0 : UnixfsCpSettings) :
  applyOpts (map cpOption calls) s0 = (cpLastWins calls s0, None).
Proof. revert calls s0. last_wins cpLastWins. Qed.

Lemma applyOpts_readCalls (calls : list UnixfsReadCall)
    (s0 : UnixfsReadSettings) :
  applyOpts (map readOption calls) s0 = (readLastWins calls s0, None).
Proof. revert calls s0. last_wins readLastWins. Qed.

Lemma applyOpts_statCalls (calls : list UnixfsStatCall)
    (s0 : UnixfsStatSettings) :
  applyOpts (map statOption calls) s0 = (statLastWins calls s0, None).
Proof. revert calls s0. last_wins statLastWins. Qed.

Lemma applyOpts_writeCalls (calls : list UnixfsWriteCall)
    (s0 : UnixfsWriteSettings) :
  applyOpts (map writeOption calls) s0 = (writeLastWins calls s0, None).
Proof. revert calls s0. last_wins writeLastWins. Qed.

(** C8, amended: every option constructor writes its argument to exactly
    one field of its settings record and returns no error, except
    [Unixfs.RawLeaves], which writes its argument to [RawLeaves] and also
    sets [RawLeavesSet] to true.  The options run in caller order, so after
    the option loop, from any starting record (the defaults, in the
    resolvers), every field other than [RawLeavesSet] holds the argument of
    the last call in the sequence that sets it, or its starting value when
    no call does; [RawLeavesSet] is true when the sequence has a
    [RawLeaves] call and keeps its starting value otherwise.  The five
    resolvers without implication rules return that record as it is. *)
Theorem C8_options_last_call_wins :
  (forall calls s0,
     applyOpts (map addOption calls) s0 = (addLastWins calls s0, None)) /\
  (forall calls s0,
     applyOpts (map writeOption calls) s0 = (writeLastWins calls s0, None)) /\
  (forall calls s0,
     applyOpts (map mkdirOption calls) s0 = (mkdirLastWins calls s0, None)) /\
  (forall calls,
     UnixfsLsOptions (map lsOption calls)
       = (Some (lsLastWins calls defaultLsSettings), None)) /\
  (forall calls,
     UnixfsStatOptions (map statOption calls)
       = (Some (statLastWins calls defaultStatSettings), None)) /\
  (forall calls,
     UnixfsReadOptions (map readOption calls)
       = (Some (readLastWins calls defaultReadSettings), None)) /\
  (forall calls,
     UnixfsCpOptions (map cpOption calls)
       = (Some (cpLastWins calls defaultCpSettings), None)) /\
  (forall calls,
     UnixfsRmOptions (map rmOption calls)
       = (Some (rmLastWins calls defaultRmSettings), None)).
Proof.
  repeat apply conj.
  - exact applyOpts_addCalls.
  - exact applyOpts_writeCalls.
  - exact applyOpts_mkdirCalls.
  - intros calls. unfold UnixfsLsOptions.
    now rewrite applyOpts_lsCalls.
  - intros calls. unfold UnixfsStatOptions.
    now rewrite applyOpts_statCalls.
  - intros calls. unfold UnixfsReadOptions.
    now rewrite applyOpts_readCalls.
  - intros calls. unfold UnixfsCpOptions.
    now rewrite applyOpts_cpCalls.
  - intros calls. unfold UnixfsRmOptions.
    now rewrite applyOpts_rmCalls.
Qed.

(** The claim C8 as first stated fails for [Unixfs.RawLeaves]: the one
    call [RawLeaves(true)] on the default record changes two fields,
    [RawLeaves] and [RawLeavesSet]; and after the one option
    [RawLeaves(false)] the field [RawLeavesSet] is true, which is neither
    its default nor the argument of the option. *)
Lemma C8_counterexample :
  (Add.RawLeaves (fst (Unixfs.RawLeaves true defaultAddSettings))
     <> Add.RawLeaves defaultAddSettings /\
   Add.RawLeavesSet (fst (Unixfs.RawLeaves true defaultAddSettings))
     <> Add.RawLeavesSet defaultAddSettings) /\
  (exists s,
     applyOpts [Unixfs.RawLeaves false] defaultAddSettings = (s, None) /\
     Add.RawLeavesSet s = true /\
     Add.RawLeavesSet s <> Add.RawLeavesSet defaultAddSettings /\
     Add.RawLeavesSet s <> false).
Proof.
  split.
  - split; cbn; discriminate.
  - eexists. split; [reflexivity|]. cbn. repeat split; discriminate.
Qed.

(** * Further properties of the resolvers *)

(** ** The option loop, continued *)

(** The loop over [l1 ++ l2] runs [l2] on the record that [l1] leaves,
    unless an option of [l1] fails. *)
Lemma applyOpts_app_cases {T : Type} (l1 l2 : list (T -> T * option error))
    (s0 : T) :
  applyOpts (l1 ++ l2) s0 =
  match applyOpts l1 s0 with
  | (s1, None) => applyOpts l2 s1
  | (s1, Some e) => (s1, Some e)
  end.
Proof.
  destruct (applyOpts l1 s0) as [s1 [e|]] eqn:H.
  - now apply applyOpts_app_error.
  - now apply applyOpts_app.
Qed.

(** X10: in every resolver the first option that returns an error ends the
    resolution: the resolver returns that error with nil settings (and the
    zero prefix), whatever options follow. *)
Theorem X10_first_option_error_is_returned :
  (forall (l1 l2 : list UnixfsAddOption) opt s s' e,
     applyOpts l1 defaultAddSettings = (s, None) ->
     opt s = (s', Some e) ->
     UnixfsAddOptions (l1 ++ opt :: l2) = (None, cid.zero, Some e)) /\
  (forall (l1 l2 : list UnixfsWriteOption) opt s s' e,
     applyOpts l1 defaultWriteSettings = (s, None) ->
     opt s = (s', Some e) ->
     UnixfsWriteOptions (l1 ++ opt :: l2) = (None, cid.zero, Some e)) /\
  (forall (l1 l2 : list UnixfsMkdirOption) opt s s' e,
     applyOpts l1 defaultMkdirSettings = (s, None) ->
     opt s = (s', Some e) ->
     UnixfsMkdirOptions (l1 ++ opt :: l2) = (None, cid.zero, Some e)) /\
  (forall (l1 l2 : list UnixfsLsOption) opt s s' e,
     applyOpts l1 defaultLsSettings = (s, None) ->
     opt s = (s', Some e) ->
     UnixfsLsOptions (l1 ++ opt :: l2) = (None, Some e)) /\
  (forall (l1 l2 : list UnixfsStatOption) opt s s' e,
     applyOpts l1 defaultStatSettings = (s, None) ->
     opt s = (s', Some e) ->
     UnixfsStatOptions (l1 ++ opt :: l2) = (None, Some e)) /\
  (forall (l1 l2 : list UnixfsReadOption) opt s s' e,
     applyOpts l1 defaultReadSettings = (s, None) ->
     opt s = (s', Some e) ->
     UnixfsReadOptions (l1 ++ opt :: l2) = (None, Some e)) /\
  (forall (l1 l2 : list UnixfsCpOption) opt s s' e,
     applyOpts l1 defaultCpSettings = (s, None) ->
     opt s = (s', Some e) ->
     UnixfsCpOptions (l1 ++ opt :: l2) = (None, Some e)) /\
  (forall (l1 l2 : list UnixfsRmOption) opt s s' e,
     applyOpts l1 defaultRmSettings = (s, None) ->
     opt s = (s', Some e) ->
     UnixfsRmOptions (l1 ++ opt :: l2) = (None, Some e)).
Proof.
  repeat apply conj; intros l1 l2 opt s s' e Hl1 Hopt;
    unfold UnixfsAddOptions, UnixfsWriteOptions, UnixfsMkdirOptions,
      UnixfsLsOptions, UnixfsStatOptions, UnixfsReadOptions,
      UnixfsCpOptions, UnixfsRmOptions;
    cbv zeta; rewrite (applyOpts_app_cases l1 (opt :: l2)), Hl1;
    cbn [applyOpts]; rewrite Hopt; reflexivity.
Qed.

(** An option that always fails, between [Hash(0x13)] and
    [CidVersion(0)]: the error returned is the option's, not the one the
    options around it would lead to. *)
Lemma X10_witness :
  UnixfsAddOptions
    ([Unixfs.Hash 0x13]
       ++ (fun s => (s, Some (errors_New "rejected")))
       :: [Unixfs.CidVersion 0])
    = (None, cid.zero, Some (errors_New "rejected")) /\
  UnixfsWriteOptions
    ([] ++ (fun s => (s, Some (errors_New "rejected")))
        :: [Unixfs.WriteCidVersion 1])
    = (None, cid.zero, Some (errors_New "rejected")) /\
  UnixfsMkdirOptions
    ([] ++ (fun s => (s, Some (errors_New "rejected"))) :: [])
    = (None, cid.zero, Some (errors_New "rejected")) /\
  UnixfsLsOptions
    ([Unixfs.ResolveChildren false]
       ++ (fun s => (s, Some (errors_New "rejected"))) :: [])
    = (None, Some (errors_New "rejected")) /\
  UnixfsStatOptions
    ([] ++ (fun s => (s, Some (errors_New "rejected")))
        :: [Unixfs.WithLocal true])
    = (None, Some (errors_New "rejected")) /\
  UnixfsReadOptions
    ([Unixfs.Offset 4]
       ++ (fun s => (s, Some (errors_New "rejected"))) :: [])
    = (None, Some (errors_New "rejected")) /\
  UnixfsCpOptions
    ([] ++ (fun s => (s, Some (errors_New "rejected")))
        :: [Unixfs.CpParents true])
    = (None, Some (errors_New "rejected")) /\
  UnixfsRmOptions
    ([Unixfs.Force true]
       ++ (fun s => (s, Some (errors_New "rejected"))) :: [])
    = (None, Some (errors_New "rejected")).
Proof.
  destruct X10_first_option_error_is_returned
    as (HA & HW & HM & HL & HS & HR & HC & HD).
  repeat apply conj.
  - exact (HA [Unixfs.Hash 0x13] [Unixfs.CidVersion 0]
              (fun s => (s, Some (errors_New "rejected")))
              _ _ _ eq_refl eq_refl).
  - exact (HW [] [Unixfs.WriteCidVersion 1]
              (fun s => (s, Some (errors_New "rejected")))
              _ _ _ eq_refl eq_refl).
  - exact (HM [] []
              (fun s => (s, Some (errors_New "rejected")))
              _ _ _ eq_refl eq_refl).
  - exact (HL [Unixfs.ResolveChildren false] []
              (fun s => (s, Some (errors_New "rejected")))
              _ _ _ eq_refl eq_refl).
  - exact (HS [] [Unixfs.WithLocal true]
              (fun s => (s, Some (errors_New "rejected")))
              _ _ _ eq_refl eq_refl).
  - exact (HR [Unixfs.Offset 4] []
              (fun s => (s, Some (errors_New "rejected")))
              _ _ _ eq_refl eq_refl).
  - exact (HC [] [Unixfs.CpParents true]
              (fun s => (s, Some (errors_New "rejected")))
              _ _ _ eq_refl eq_refl).
  - exact (HD [Unixfs.Force true] []
              (fun s => (s, Some (errors_New "rejected")))
              _ _ _ eq_refl eq_refl).
Defined.

(** ** What a successful resolution returns *)

(** The settings a successful [UnixfsAddOptions] returns are the record
    [s] of the option loop with [CidVersion] and [RawLeaves] resolved. *)
Lemma UnixfsAddOptions_resolved (opts : list UnixfsAddOption)
    (s r : UnixfsAddSettings) (p : cid.Prefix) :
  applyOpts opts defaultAddSettings = (s, None) ->
  UnixfsAddOptions opts = (Some r, p, None) ->
  Add.NoCopy s && negb (Add.RawLeaves s) && Add.RawLeavesSet s = false /\
  (if Add.MhType s =? mh.SHA2_256
   then Add.CidVersion s <= 1
   else Add.CidVersion s = 1 \/ Add.CidVersion s = -1) /\
  Add.CidVersion r =
    (if Add.MhType s =? mh.SHA2_256
     then if Add.CidVersion s <? 0 then 0 else Add.CidVersion s
     else 1) /\
  r = Add.set_RawLeaves (Add.RawLeaves r)
        (Add.set_CidVersion (Add.CidVersion r) s).
Proof.
  unfold UnixfsAddOptions. cbv zeta. intros ->.
  destruct s as [ver mht inl lim raw rawset ch lay pin oh fc nc ev sil prog tf].
  simpl_settings.
  destruct nc, raw, rawset; simpl_settings; try discriminate;
    destruct (mht =? mh.SHA2_256); simpl_settings;
    case_version ver; cbn; try discriminate;
    intros H; inversion H; subst; clear H; cbn;
    repeat split; auto; lia.
Qed.

Lemma UnixfsWriteOptions_resolved (opts : list UnixfsWriteOption)
    (s r : UnixfsWriteSettings) (p : cid.Prefix) :
  applyOpts opts defaultWriteSettings = (s, None) ->
  UnixfsWriteOptions opts = (Some r, p, None) ->
  (if Write.MhType s =? mh.SHA2_256
   then Write.CidVersion s <= 1
   else Write.CidVersion s = 1 \/ Write.CidVersion s = -1) /\
  Write.CidVersion r =
    (if Write.MhType s =? mh.SHA2_256
     then if Write.CidVersion s <? 0 then 0 else Write.CidVersion s
     else 1) /\
  r = Write.set_RawLeaves (Write.RawLeaves r)
        (Write.set_CidVersion (Write.CidVersion r) s).
Proof.
  unfold UnixfsWriteOptions. cbv zeta. intros ->.
  destruct s as [off cr par tr cnt raw ver mht].
  simpl_settings.
  destruct (mht =? mh.SHA2_256); simpl_settings;
    case_version ver; destruct raw; cbn; try discriminate;
    intros H; inversion H; subst; clear H; cbn;
    repeat split; auto; lia.
Qed.

Lemma UnixfsMkdirOptions_resolved (opts : list UnixfsMkdirOption)
    (s r : UnixfsMkdirSettings) (p : cid.Prefix) :
  applyOpts opts defaultMkdirSettings = (s, None) ->
  UnixfsMkdirOptions opts = (Some r, p, None) ->
  (if Mkdir.MhType s =? mh.SHA2_256
   then Mkdir.CidVersion s <= 1
   else Mkdir.CidVersion s = 1 \/ Mkdir.CidVersion s = -1) /\
  Mkdir.CidVersion r =
    (if Mkdir.MhType s =? mh.SHA2_256
     then if Mkdir.CidVersion s <? 0 then 0 else Mkdir.CidVersion s
     else 1) /\
  r = Mkdir.set_CidVersion (Mkdir.CidVersion r) s.
Proof.
  unfold UnixfsMkdirOptions. cbv zeta. intros ->.
  destruct s as [par ver mht].
  simpl_settings.
  destruct (mht =? mh.SHA2_256); simpl_settings;
    case_version ver; cbn; try discriminate;
    intros H; inversion H; subst; clear H; cbn;
    repeat split; auto; lia.
Qed.

(** The converse: options that pass the checks resolve successfully. *)
Lemma UnixfsAddOptions_accepts (opts : list UnixfsAddOption)
    (s : UnixfsAddSettings) :
  applyOpts opts defaultAddSettings = (s, None) ->
  Add.NoCopy s && negb (Add.RawLeaves s) && Add.RawLeavesSet s = false ->
  (if Add.MhType s =? mh.SHA2_256
   then Add.CidVersion s <= 1
   else Add.CidVersion s = 1 \/ Add.CidVersion s = -1) ->
  exists r p, UnixfsAddOptions opts = (Some r, p, None).
Proof.
  unfold UnixfsAddOptions. cbv zeta. intros ->.
  destruct s as [ver mht inl lim raw rawset ch lay pin oh fc nc ev sil prog tf].
  simpl_settings.
  destruct nc, raw, rawset; simpl_settings; try discriminate; intros _;
    destruct (mht =? mh.SHA2_256); simpl_settings;
    case_version ver; cbn; intros H;
    try (exfalso; lia); try (exfalso; destruct H; discriminate);
    eexists; eexists; reflexivity.
Qed.

Lemma UnixfsWriteOptions_accepts (opts : list UnixfsWriteOption)
    (s : UnixfsWriteSettings) :
  applyOpts opts defaultWriteSettings = (s, None) ->
  (if Write.MhType s =? mh.SHA2_256
   then Write.CidVersion s <= 1
   else Write.CidVersion s = 1 \/ Write.CidVersion s = -1) ->
  exists r p, UnixfsWriteOptions opts = (Some r, p, None).
Proof.
  unfold UnixfsWriteOptions. cbv zeta. intros ->.
  destruct s as [off cr par tr cnt raw ver mht].
  simpl_settings.
  destruct (mht =? mh.SHA2_256); simpl_settings;
    case_version ver; destruct raw; cbn; intros H;
    try (exfalso; lia); try (exfalso; destruct H; discriminate);
    eexists; eexists; reflexivity.
Qed.

Lemma UnixfsMkdirOptions_accepts (opts : list UnixfsMkdirOption)
    (s : UnixfsMkdirSettings) :
  applyOpts opts defaultMkdirSettings = (s, None) ->
  (if Mkdir.MhType s =? mh.SHA2_256
   then Mkdir.CidVersion s <= 1
   else Mkdir.CidVersion s = 1 \/ Mkdir.CidVersion s = -1) ->
  exists r p, UnixfsMkdirOptions opts = (Some r, p, None).
Proof.
  unfold UnixfsMkdirOptions. cbv zeta. intros ->.
  destruct s as [par ver mht].
  simpl_settings.
  destruct (mht =? mh.SHA2_256); simpl_settings;
    case_version ver; cbn; intros H;
    try (exfalso; lia); try (exfalso; destruct H; discriminate);
    eexists; eexists; reflexivity.
Qed.

(** ** The CID version rules of Write and Mkdir *)

(** X1: for [UnixfsWriteOptions], when the options leave a hash function
    other than sha2-256, a [CidVersion] of 0 fails with
    [UnsupportedCombination], a [CidVersion] of -1 or 1 resolves to version
    1 with [RawLeaves] true, and every other value fails with
    [UnknownCidVersion]. *)
Theorem X1_write_nonstandard_hash_cid_version
    (opts : list UnixfsWriteOption) (s : UnixfsWriteSettings) :
  applyOpts opts defaultWriteSettings = (s, None) ->
  Write.MhType s <> mh.SHA2_256 ->
  (Write.CidVersion s = 0 ->
   UnixfsWriteOptions opts
     = (None, cid.zero, Some UnsupportedCombination)) /\
  (Write.CidVersion s = -1 \/ Write.CidVersion s = 1 ->
   exists r p,
     UnixfsWriteOptions opts = (Some r, p, None) /\
     Write.CidVersion r = 1 /\ Write.RawLeaves r = true) /\
  (Write.CidVersion s <> 0 -> Write.CidVersion s <> -1 ->
   Write.CidVersion s <> 1 ->
   UnixfsWriteOptions opts
     = (None, cid.zero, Some (UnknownCidVersion (Write.CidVersion s)))).
Proof.
  intros Hloop Hmh.
  unfold UnixfsWriteOptions. cbv zeta. rewrite Hloop.
  apply Z.eqb_neq in Hmh. rewrite Hmh. cbn [negb].
  split; [|split].
  - intros ->. reflexivity.
  - intros [-> | ->]; simpl_settings;
      destruct (Write.RawLeaves s) eqn:Hraw;
      eexists; eexists; repeat split; cbn; assumption.
  - intros H0 Hm1 H1.
    destruct (Write.CidVersion s) as [|[?|?|]|[?|?|]];
      try reflexivity; congruence.
Qed.

(** The options [WriteHash(0x13)] with [WriteCidVersion(0)], alone, and
    with [WriteCidVersion(3)]. *)
Lemma X1_witness :
  UnixfsWriteOptions [Unixfs.WriteHash 0x13; Unixfs.WriteCidVersion 0]
    = (None, cid.zero, Some UnsupportedCombination) /\
  (exists r p,
     UnixfsWriteOptions [Unixfs.WriteHash 0x13] = (Some r, p, None) /\
     Write.CidVersion r = 1 /\ Write.RawLeaves r = true) /\
  UnixfsWriteOptions [Unixfs.WriteHash 0x13; Unixfs.WriteCidVersion 3]
    = (None, cid.zero, Some (UnknownCidVersion 3)).
Proof.
  split; [|split].
  - refine (proj1 (X1_write_nonstandard_hash_cid_version
                     [Unixfs.WriteHash 0x13; Unixfs.WriteCidVersion 0] _
                     eq_refl _) eq_refl).
    cbn. discriminate.
  - refine (proj1 (proj2 (X1_write_nonstandard_hash_cid_version
                            [Unixfs.WriteHash 0x13] _ eq_refl _))
              (or_introl eq_refl)).
    cbn. discriminate.
  - refine (proj2 (proj2 (X1_write_nonstandard_hash_cid_version
                            [Unixfs.WriteHash 0x13; Unixfs.WriteCidVersion 3]
                            _ eq_refl _)) _ _ _);
      cbn; discriminate.
Defined.

(** X2: for [UnixfsMkdirOptions], when the options leave a hash function
    other than sha2-256, a [CidVersion] of 0 fails with
    [UnsupportedCombination], a [CidVersion] of -1 or 1 resolves to version
    1, and every other value fails with [UnknownCidVersion]. *)
Theorem X2_mkdir_nonstandard_hash_cid_version
    (opts : list UnixfsMkdirOption) (s : UnixfsMkdirSettings) :
  applyOpts opts defaultMkdirSettings = (s, None) ->
  Mkdir.MhType s <> mh.SHA2_256 ->
  (Mkdir.CidVersion s = 0 ->
   UnixfsMkdirOptions opts
     = (None, cid.zero, Some UnsupportedCombination)) /\
  (Mkdir.CidVersion s = -1 \/ Mkdir.CidVersion s = 1 ->
   exists r p,
     UnixfsMkdirOptions opts = (Some r, p, None) /\
     Mkdir.CidVersion r = 1) /\
  (Mkdir.CidVersion s <> 0 -> Mkdir.CidVersion s <> -1 ->
   Mkdir.CidVersion s <> 1 ->
   UnixfsMkdirOptions opts
     = (None, cid.zero, Some (UnknownCidVersion (Mkdir.CidVersion s)))).
Proof.
  intros Hloop Hmh.
  unfold UnixfsMkdirOptions. cbv zeta. rewrite Hloop.
  apply Z.eqb_neq in Hmh. rewrite Hmh. cbn [negb].
  split; [|split].
  - intros ->. reflexivity.
  - intros [-> | ->]; eexists; eexists; repeat split.
  - intros H0 Hm1 H1.
    destruct (Mkdir.CidVersion s) as [|[?|?|]|[?|?|]];
      try reflexivity; congruence.
Qed.

(** The options [MkdirHash(0x13)] with [MkdirCidVersion(0)], with
    [MkdirCidVersion(1)], and with [MkdirCidVersion(-2)]. *)
Lemma X2_witness :
  UnixfsMkdirOptions [Unixfs.MkdirHash 0x13; Unixfs.MkdirCidVersion 0]
    = (None, cid.zero, Some UnsupportedCombination) /\
  (exists r p,
     UnixfsMkdirOptions [Unixfs.MkdirHash 0x13; Unixfs.MkdirCidVersion 1]
       = (Some r, p, None) /\
     Mkdir.CidVersion r = 1) /\
  UnixfsMkdirOptions [Unixfs.MkdirHash 0x13; Unixfs.MkdirCidVersion (-2)]
    = (None, cid.zero, Some (UnknownCidVersion (-2))).
Proof.
  split; [|split].
  - refine (proj1 (X2_mkdir_nonstandard_hash_cid_version
                     [Unixfs.MkdirHash 0x13; Unixfs.MkdirCidVersion 0] _
                     eq_refl _) eq_refl).
    cbn. discriminate.
  - refine (proj1 (proj2 (X2_mkdir_nonstandard_hash_cid_version
                            [Unixfs.MkdirHash 0x13; Unixfs.MkdirCidVersion 1]
                            _ eq_refl _))
              (or_intror eq_refl)).
    cbn. discriminate.
  - refine (proj2 (proj2 (X2_mkdir_nonstandard_hash_cid_version
                            [Unixfs.MkdirHash 0x13;
                             Unixfs.MkdirCidVersion (-2)]
                            _ eq_refl _)) _ _ _);
      cbn; discriminate.
Defined.

(** ** Hash function and CID version of resolved settings *)

(** X3: in settings that [UnixfsAddOptions], [UnixfsWriteOptions] or
    [UnixfsMkdirOptions] returns, a hash function other than sha2-256 comes
    with [CidVersion] 1; so [CidVersion] 0 comes with sha2-256 only. *)
Theorem X3_nonstandard_hash_implies_cidv1 :
  (forall (opts : list UnixfsAddOption) r p,
     UnixfsAddOptions opts = (Some r, p, None) ->
     (Add.MhType r <> mh.SHA2_256 -> Add.CidVersion r = 1) /\
     (Add.CidVersion r = 0 -> Add.MhType r = mh.SHA2_256)) /\
  (forall (opts : list UnixfsWriteOption) r p,
     UnixfsWriteOptions opts = (Some r, p, None) ->
     (Write.MhType r <> mh.SHA2_256 -> Write.CidVersion r = 1) /\
     (Write.CidVersion r = 0 -> Write.MhType r = mh.SHA2_256)) /\
  (forall (opts : list UnixfsMkdirOption) r p,
     UnixfsMkdirOptions opts = (Some r, p, None) ->
     (Mkdir.MhType r <> mh.SHA2_256 -> Mkdir.CidVersion r = 1) /\
     (Mkdir.CidVersion r = 0 -> Mkdir.MhType r = mh.SHA2_256)).
Proof.
  split; [|split]; intros opts r p H.
  - destruct (UnixfsAddOptions_success _ _ _ H)
      as (s & r' & Hloop & Hr & _ & _ & Hmh & _).
    injection Hr as <-.
    destruct (UnixfsAddOptions_resolved _ _ _ _ Hloop H)
      as (_ & _ & Hver & _).
    rewrite Hmh, Hver.
    destruct (Z.eqb_spec (Add.MhType s) mh.SHA2_256);
      split; congruence.
  - destruct (UnixfsWriteOptions_success _ _ _ H)
      as (s & r' & Hloop & Hr & _ & _ & Hmh & _).
    injection Hr as <-.
    destruct (UnixfsWriteOptions_resolved _ _ _ _ Hloop H)
      as (_ & Hver & _).
    rewrite Hmh, Hver.
    destruct (Z.eqb_spec (Write.MhType s) mh.SHA2_256);
      split; congruence.
  - destruct (UnixfsMkdirOptions_success _ _ _ H)
      as (s & r' & Hloop & Hr & _ & _ & Hmh & _).
    injection Hr as <-.
    destruct (UnixfsMkdirOptions_resolved _ _ _ _ Hloop H)
      as (_ & Hver & _).
    rewrite Hmh, Hver.
    destruct (Z.eqb_spec (Mkdir.MhType s) mh.SHA2_256);
      split; congruence.
Qed.

(** Successful resolutions with the hash function 0x13. *)
Lemma X3_witness :
  (exists r p,
     UnixfsAddOptions [Unixfs.Hash 0x13] = (Some r, p, None) /\
     Add.MhType r <> mh.SHA2_256 /\ Add.CidVersion r = 1) /\
  (exists r p,
     UnixfsWriteOptions [Unixfs.WriteHash 0x13] = (Some r, p, None) /\
     Write.MhType r <> mh.SHA2_256 /\ Write.CidVersion r = 1) /\
  (exists r p,
     UnixfsMkdirOptions [Unixfs.MkdirHash 0x13] = (Some r, p, None) /\
     Mkdir.MhType r <> mh.SHA2_256 /\ Mkdir.CidVersion r = 1).
Proof.
  destruct X3_nonstandard_hash_implies_cidv1 as (HA & HW & HM).
  split; [|split]; eexists; eexists; (split; [reflexivity|]);
    (split; [cbn; discriminate|]).
  - refine (proj1 (HA [Unixfs.Hash 0x13] _ _ eq_refl) _).
    cbn. discriminate.
  - refine (proj1 (HW [Unixfs.WriteHash 0x13] _ _ eq_refl) _).
    cbn. discriminate.
  - refine (proj1 (HM [Unixfs.MkdirHash 0x13] _ _ eq_refl) _).
    cbn. discriminate.
Defined.

(** X4: with the hash function sha2-256 every negative [CidVersion], not
    only the sentinel -1, counts as unset: the three resolvers resolve it
    to 0 (for Add, when the no-copy rule does not reject the options). *)
Theorem X4_negative_cid_version_resolves_to_0 :
  (forall (opts : list UnixfsAddOption) s,
     applyOpts opts defaultAddSettings = (s, None) ->
     Add.MhType s = mh.SHA2_256 -> Add.CidVersion s < 0 ->
     Add.NoCopy s && negb (Add.RawLeaves s) && Add.RawLeavesSet s = false ->
     exists r p,
       UnixfsAddOptions opts = (Some r, p, None) /\ Add.CidVersion r = 0) /\
  (forall (opts : list UnixfsWriteOption) s,
     applyOpts opts defaultWriteSettings = (s, None) ->
     Write.MhType s = mh.SHA2_256 -> Write.CidVersion s < 0 ->
     exists r p,
       UnixfsWriteOptions opts = (Some r, p, None) /\
       Write.CidVersion r = 0) /\
  (forall (opts : list UnixfsMkdirOption) s,
     applyOpts opts defaultMkdirSettings = (s, None) ->
     Mkdir.MhType s = mh.SHA2_256 -> Mkdir.CidVersion s < 0 ->
     exists r p,
       UnixfsMkdirOptions opts = (Some r, p, None) /\
       Mkdir.CidVersion r = 0).
Proof.
  split; [|split].
  - intros opts s Hloop Hmh Hneg Hstep1.
    apply Z.eqb_eq in Hmh.
    destruct (UnixfsAddOptions_accepts opts s Hloop Hstep1) as (r & p & H).
    { rewrite Hmh. lia. }
    exists r, p. split; [assumption|].
    destruct (UnixfsAddOptions_resolved _ _ _ _ Hloop H)
      as (_ & _ & Hver & _).
    rewrite Hver, Hmh.
    now replace (Add.CidVersion s <? 0) with true
      by (symmetry; apply Z.ltb_lt; assumption).
  - intros opts s Hloop Hmh Hneg.
    apply Z.eqb_eq in Hmh.
    destruct (UnixfsWriteOptions_accepts opts s Hloop) as (r & p & H).
    { rewrite Hmh. lia. }
    exists r, p. split; [assumption|].
    destruct (UnixfsWriteOptions_resolved _ _ _ _ Hloop H)
      as (_ & Hver & _).
    rewrite Hver, Hmh.
    now replace (Write.CidVersion s <? 0) with true
      by (symmetry; apply Z.ltb_lt; assumption).
  - intros opts s Hloop Hmh Hneg.
    apply Z.eqb_eq in Hmh.
    destruct (UnixfsMkdirOptions_accepts opts s Hloop) as (r & p & H).
    { rewrite Hmh. lia. }
    exists r, p. split; [assumption|].
    destruct (UnixfsMkdirOptions_resolved _ _ _ _ Hloop H)
      as (_ & Hver & _).
    rewrite Hver, Hmh.
    now replace (Mkdir.CidVersion s <? 0) with true
      by (symmetry; apply Z.ltb_lt; assumption).
Qed.

(** The versions -7, -2 and -100, given explicitly. *)
Lemma X4_witness :
  (exists r p,
     UnixfsAddOptions [Unixfs.CidVersion (-7)] = (Some r, p, None) /\
     Add.CidVersion r = 0) /\
  (exists r p,
     UnixfsWriteOptions [Unixfs.WriteCidVersion (-2)] = (Some r, p, None) /\
     Write.CidVersion r = 0) /\
  (exists r p,
     UnixfsMkdirOptions [Unixfs.MkdirCidVersion (-100)]
       = (Some r, p, None) /\
     Mkdir.CidVersion r = 0).
Proof.
  destruct X4_negative_cid_version_resolves_to_0 as (HA & HW & HM).
  split; [|split].
  - exact (HA [Unixfs.CidVersion (-7)] _ eq_refl eq_refl eq_refl eq_refl).
  - exact (HW [Unixfs.WriteCidVersion (-2)] _ eq_refl eq_refl eq_refl).
  - exact (HM [Unixfs.MkdirCidVersion (-100)] _ eq_refl eq_refl eq_refl).
Defined.

(** X5: a [CidVersion] that the options set to a value at least 0 is never
    replaced: when resolution succeeds, the resolved [CidVersion] is the
    one the options left. *)
Theorem X5_explicit_cid_version_is_kept :
  (forall (opts : list UnixfsAddOption) s r p,
     applyOpts opts defaultAddSettings = (s, None) ->
     UnixfsAddOptions opts = (Some r, p, None) ->
     0 <= Add.CidVersion s -> Add.CidVersion r = Add.CidVersion s) /\
  (forall (opts : list UnixfsWriteOption) s r p,
     applyOpts opts defaultWriteSettings = (s, None) ->
     UnixfsWriteOptions opts = (Some r, p, None) ->
     0 <= Write.CidVersion s -> Write.CidVersion r = Write.CidVersion s) /\
  (forall (opts : list UnixfsMkdirOption) s r p,
     applyOpts opts defaultMkdirSettings = (s, None) ->
     UnixfsMkdirOptions opts = (Some r, p, None) ->
     0 <= Mkdir.CidVersion s -> Mkdir.CidVersion r = Mkdir.CidVersion s).
Proof.
  split; [|split]; intros opts s r p Hloop H Hpos.
  - destruct (UnixfsAddOptions_resolved _ _ _ _ Hloop H)
      as (_ & Hok & Hver & _).
    rewrite Hver.
    destruct (Add.MhType s =? mh.SHA2_256); [|lia].
    now replace (Add.CidVersion s <? 0) with false
      by (symmetry; apply Z.ltb_ge; assumption).
  - destruct (UnixfsWriteOptions_resolved _ _ _ _ Hloop H)
      as (Hok & Hver & _).
    rewrite Hver.
    destruct (Write.MhType s =? mh.SHA2_256); [|lia].
    now replace (Write.CidVersion s <? 0) with false
      by (symmetry; apply Z.ltb_ge; assumption).
  - destruct (UnixfsMkdirOptions_resolved _ _ _ _ Hloop H)
      as (Hok & Hver & _).
    rewrite Hver.
    destruct (Mkdir.MhType s =? mh.SHA2_256); [|lia].
    now replace (Mkdir.CidVersion s <? 0) with false
      by (symmetry; apply Z.ltb_ge; assumption).
Qed.

(** Explicit versions 1, 0 and 1. *)
Lemma X5_witness :
  (exists r p,
     UnixfsAddOptions [Unixfs.CidVersion 1] = (Some r, p, None) /\
     Add.CidVersion r = 1) /\
  (exists r p,
     UnixfsWriteOptions [Unixfs.WriteCidVersion 0] = (Some r, p, None) /\
     Write.CidVersion r = 0) /\
  (exists r p,
     UnixfsMkdirOptions [Unixfs.MkdirHash 0x13; Unixfs.MkdirCidVersion 1]
       = (Some r, p, None) /\
     Mkdir.CidVersion r = 1).
Proof.
  destruct X5_explicit_cid_version_is_kept as (HA & HW & HM).
  split; [|split]; eexists; eexists; (split; [reflexivity|]).
  - refine (HA [Unixfs.CidVersion 1] _ _ _ eq_refl eq_refl _).
    cbn. lia.
  - refine (HW [Unixfs.WriteCidVersion 0] _ _ _ eq_refl eq_refl _).
    cbn. lia.
  - refine (HM [Unixfs.MkdirHash 0x13; Unixfs.MkdirCidVersion 1]
               _ _ _ eq_refl eq_refl _).
    cbn. lia.
Defined.

(** ** Fields the rules leave alone *)

(** X6: a successful [UnixfsAddOptions] changes no field of the record the
    options left other than [CidVersion] and [RawLeaves]: the hash
    function, [NoCopy], [RawLeavesSet], the chunker, the layout and the
    other fields are returned as the options set them. *)
Theorem X6_add_rules_change_two_fields_only (opts : list UnixfsAddOption)
    (s r : UnixfsAddSettings) (p : cid.Prefix) :
  applyOpts opts defaultAddSettings = (s, None) ->
  UnixfsAddOptions opts = (Some r, p, None) ->
  r = Add.set_RawLeaves (Add.RawLeaves r)
        (Add.set_CidVersion (Add.CidVersion r) s).
Proof.
  intros Hloop H.
  now destruct (UnixfsAddOptions_resolved _ _ _ _ Hloop H) as (_ & _ & _ & ?).
Qed.

(** Options that set fields the rules do not touch. *)
Lemma X6_witness :
  exists r p,
    UnixfsAddOptions [Unixfs.Chunker "rabin-16-32-64"; Unixfs.Hash 0x13]
      = (Some r, p, None) /\
    r = Add.set_RawLeaves (Add.RawLeaves r)
          (Add.set_CidVersion (Add.CidVersion r)
             (Add.set_MhType 0x13
                (Add.set_Chunker "rabin-16-32-64" defaultAddSettings))).
Proof.
  eexists. eexists. split; [vm_compute; reflexivity|].
  exact (X6_add_rules_change_two_fields_only
           [Unixfs.Chunker "rabin-16-32-64"; Unixfs.Hash 0x13]
           _ _ _ eq_refl eq_refl).
Defined.

(** X7: a successful [UnixfsWriteOptions] changes no field of the record
    the options left other than [CidVersion] and [RawLeaves], and a
    successful [UnixfsMkdirOptions] none other than [CidVersion]. *)
Theorem X7_write_mkdir_rules_change_version_fields_only :
  (forall (opts : list UnixfsWriteOption) s r p,
     applyOpts opts defaultWriteSettings = (s, None) ->
     UnixfsWriteOptions opts = (Some r, p, None) ->
     r = Write.set_RawLeaves (Write.RawLeaves r)
           (Write.set_CidVersion (Write.CidVersion r) s)) /\
  (forall (opts : list UnixfsMkdirOption) s r p,
     applyOpts opts defaultMkdirSettings = (s, None) ->
     UnixfsMkdirOptions opts = (Some r, p, None) ->
     r = Mkdir.set_CidVersion (Mkdir.CidVersion r) s).
Proof.
  split; intros opts s r p Hloop H.
  - now destruct (UnixfsWriteOptions_resolved _ _ _ _ Hloop H) as (_ & _ & ?).
  - now destruct (UnixfsMkdirOptions_resolved _ _ _ _ Hloop H) as (_ & _ & ?).
Qed.

(** A write at offset 10 that creates the file, and a directory made with
    its parents. *)
Lemma X7_witness :
  (exists r p,
     UnixfsWriteOptions
       [Unixfs.WriteOffset 10; Unixfs.Create true; Unixfs.WriteHash 0x13]
       = (Some r, p, None) /\
     r = Write.set_RawLeaves (Write.RawLeaves r)
           (Write.set_CidVersion (Write.CidVersion r)
              (Write.set_MhType 0x13
                 (Write.set_Create true
                    (Write.set_Offset 10 defaultWriteSettings))))) /\
  (exists r p,
     UnixfsMkdirOptions [Unixfs.Parents true] = (Some r, p, None) /\
     r = Mkdir.set_CidVersion (Mkdir.CidVersion r)
           (Mkdir.set_Parents true defaultMkdirSettings)).
Proof.
  destruct X7_write_mkdir_rules_change_version_fields_only as (HW & HM).
  split; eexists; eexists; (split; [reflexivity|]).
  - exact (HW [Unixfs.WriteOffset 10; Unixfs.Create true;
               Unixfs.WriteHash 0x13] _ _ _ eq_refl eq_refl).
  - exact (HM [Unixfs.Parents true] _ _ _ eq_refl eq_refl).
Defined.

(** ** Resolved raw leaves *)

(** X8: in settings that [UnixfsAddOptions] returns, [RawLeaves] is true
    exactly when the options left it true, or left [NoCopy] true, or the
    resolved [CidVersion] is 1 and no option set [RawLeaves]. *)
Theorem X8_add_resolved_raw_leaves (opts : list UnixfsAddOption)
    (s r : UnixfsAddSettings) (p : cid.Prefix) :
  applyOpts opts defaultAddSettings = (s, None) ->
  UnixfsAddOptions opts = (Some r, p, None) ->
  (Add.RawLeaves r = true <->
   Add.RawLeaves s = true \/ Add.NoCopy s = true \/
   (Add.CidVersion r = 1 /\ Add.RawLeavesSet s = false)).
Proof.
  intros Hloop H.
  destruct (UnixfsAddOptions_success _ _ _ H)
    as (s' & r' & Hloop' & Hr & Hv & _ & _ & _ & _ & Hraw).
  rewrite Hloop in Hloop'. injection Hloop' as <-. injection Hr as <-.
  rewrite Hraw.
  destruct Hv as [-> | ->]; cbn;
    destruct (Add.RawLeaves s), (Add.NoCopy s), (Add.RawLeavesSet s); cbn;
    intuition discriminate.
Qed.

(** A file added with CIDv1 and nothing said about raw leaves. *)
Lemma X8_witness :
  exists r p,
    UnixfsAddOptions [Unixfs.CidVersion 1] = (Some r, p, None) /\
    Add.RawLeaves r = true.
Proof.
  eexists. eexists. split; [reflexivity|].
  refine (proj2 (X8_add_resolved_raw_leaves [Unixfs.CidVersion 1]
                   _ _ _ eq_refl eq_refl) _).
  right. right. split; reflexivity.
Defined.

(** X9: in settings that [UnixfsWriteOptions] returns, [RawLeaves] is true
    exactly when the options left it true or the resolved [CidVersion] is
    1. *)
Theorem X9_write_resolved_raw_leaves (opts : list UnixfsWriteOption)
    (s r : UnixfsWriteSettings) (p : cid.Prefix) :
  applyOpts opts defaultWriteSettings = (s, None) ->
  UnixfsWriteOptions opts = (Some r, p, None) ->
  (Write.RawLeaves r = true <->
   Write.RawLeaves s = true \/ Write.CidVersion r = 1).
Proof.
  intros Hloop H.
  destruct (UnixfsWriteOptions_success _ _ _ H)
    as (s' & r' & Hloop' & Hr & Hv & _ & _ & Hraw).
  rewrite Hloop in Hloop'. injection Hloop' as <-. injection Hr as <-.
  rewrite Hraw.
  destruct Hv as [-> | ->]; cbn;
    destruct (Write.RawLeaves s); cbn; intuition discriminate.
Qed.

(** A write with CIDv0 and raw leaves asked for, and one with neither. *)
Lemma X9_witness :
  (exists r p,
     UnixfsWriteOptions [Unixfs.WriteRawLeaves true] = (Some r, p, None) /\
     Write.CidVersion r = 0 /\ Write.RawLeaves r = true) /\
  (exists r p,
     UnixfsWriteOptions [] = (Some r, p, None) /\
     Write.RawLeaves r <> true).
Proof.
  split; eexists; eexists; (split; [reflexivity|]).
  - split; [reflexivity|].
    refine (proj2 (X9_write_resolved_raw_leaves [Unixfs.WriteRawLeaves true]
                     _ _ _ eq_refl eq_refl) _).
    left. reflexivity.
  - intros Hraw.
    destruct (proj1 (X9_write_resolved_raw_leaves []
                       _ _ _ eq_refl eq_refl) Hraw) as [H | H];
      discriminate H.
Defined.

(** ** Which error, and when *)

Lemma UnknownCidVersion_neq_ConflictingOption (v : Z) :
  UnknownCidVersion v <> ConflictingOption.
Proof. unfold UnknownCidVersion, fmt_Errorf_d. cbn [append]. discriminate. Qed.

Lemma UnknownCidVersion_neq_UnsupportedCombination (v : Z) :
  UnknownCidVersion v <> UnsupportedCombination.
Proof. unfold UnknownCidVersion, fmt_Errorf_d. cbn [append]. discriminate. Qed.

Lemma ConflictingOption_neq_UnsupportedCombination :
  ConflictingOption <> UnsupportedCombination.
Proof. discriminate. Qed.

(** The error of a resolution whose option loop ends without error. *)
Lemma UnixfsAddOptions_error (opts : list UnixfsAddOption)
    (s : UnixfsAddSettings) :
  applyOpts opts defaultAddSettings = (s, None) ->
  snd (UnixfsAddOptions opts) =
  if Add.NoCopy s && negb (Add.RawLeaves s) && Add.RawLeavesSet s
  then Some ConflictingOption
  else if Add.MhType s =? mh.SHA2_256
       then if Add.CidVersion s <=? 1 then None
            else Some (UnknownCidVersion (Add.CidVersion s))
       else if Add.CidVersion s =? 0 then Some UnsupportedCombination
            else if (Add.CidVersion s =? 1) || (Add.CidVersion s =? -1)
                 then None
                 else Some (UnknownCidVersion (Add.CidVersion s)).
Proof.
  unfold UnixfsAddOptions. cbv zeta. intros ->.
  destruct s as [ver mht inl lim raw rawset ch lay pin oh fc nc ev sil prog tf].
  simpl_settings.
  destruct nc, raw, rawset; simpl_settings; try reflexivity;
    destruct (mht =? mh.SHA2_256); simpl_settings;
    case_version ver; reflexivity.
Qed.

Lemma UnixfsWriteOptions_error (opts : list UnixfsWriteOption)
    (s : UnixfsWriteSettings) :
  applyOpts opts defaultWriteSettings = (s, None) ->
  snd (UnixfsWriteOptions opts) =
  if Write.MhType s =? mh.SHA2_256
  then if Write.CidVersion s <=? 1 then None
       else Some (UnknownCidVersion (Write.CidVersion s))
  else if Write.CidVersion s =? 0 then Some UnsupportedCombination
       else if (Write.CidVersion s =? 1) || (Write.CidVersion s =? -1)
            then None
            else Some (UnknownCidVersion (Write.CidVersion s)).
Proof.
  unfold UnixfsWriteOptions. cbv zeta. intros ->.
  destruct s as [off cr par tr cnt raw ver mht].
  simpl_settings.
  destruct (mht =? mh.SHA2_256); simpl_settings;
    case_version ver; destruct raw; reflexivity.
Qed.

Lemma UnixfsMkdirOptions_error (opts : list UnixfsMkdirOption)
    (s : UnixfsMkdirSettings) :
  applyOpts opts defaultMkdirSettings = (s, None) ->
  snd (UnixfsMkdirOptions opts) =
  if Mkdir.MhType s =? mh.SHA2_256
  then if Mkdir.CidVersion s <=? 1 then None
       else Some (UnknownCidVersion (Mkdir.CidVersion s))
  else if Mkdir.CidVersion s =? 0 then Some UnsupportedCombination
       else if (Mkdir.CidVersion s =? 1) || (Mkdir.CidVersion s =? -1)
            then None
            else Some (UnknownCidVersion (Mkdir.CidVersion s)).
Proof.
  unfold UnixfsMkdirOptions. cbv zeta. intros ->.
  destruct s as [par ver mht].
  simpl_settings.
  destruct (mht =? mh.SHA2_256); simpl_settings;
    case_version ver; reflexivity.
Qed.

(** X11: when the option loop ends without error, [UnixfsAddOptions]
    returns [ConflictingOption] exactly when the options left [NoCopy]
    true, [RawLeaves] false and [RawLeavesSet] true, and it returns
    [UnsupportedCombination] exactly when that is not so and the options
    left a hash function other than sha2-256 with [CidVersion] 0.
    [UnixfsWriteOptions] and [UnixfsMkdirOptions] never return
    [ConflictingOption], and return [UnsupportedCombination] exactly for a
    hash function other than sha2-256 with [CidVersion] 0. *)
Theorem X11_causes_of_the_resolver_errors :
  (forall (opts : list UnixfsAddOption) s,
     applyOpts opts defaultAddSettings = (s, None) ->
     (snd (UnixfsAddOptions opts) = Some ConflictingOption <->
      Add.NoCopy s && negb (Add.RawLeaves s) && Add.RawLeavesSet s = true) /\
     (snd (UnixfsAddOptions opts) = Some UnsupportedCombination <->
      Add.NoCopy s && negb (Add.RawLeaves s) && Add.RawLeavesSet s = false /\
      Add.MhType s <> mh.SHA2_256 /\ Add.CidVersion s = 0)) /\
  (forall (opts : list UnixfsWriteOption) s,
     applyOpts opts defaultWriteSettings = (s, None) ->
     snd (UnixfsWriteOptions opts) <> Some ConflictingOption /\
     (snd (UnixfsWriteOptions opts) = Some UnsupportedCombination <->
      Write.MhType s <> mh.SHA2_256 /\ Write.CidVersion s = 0)) /\
  (forall (opts : list UnixfsMkdirOption) s,
     applyOpts opts defaultMkdirSettings = (s, None) ->
     snd (UnixfsMkdirOptions opts) <> Some ConflictingOption /\
     (snd (UnixfsMkdirOptions opts) = Some UnsupportedCombination <->
      Mkdir.MhType s <> mh.SHA2_256 /\ Mkdir.CidVersion s = 0)).
Proof.
  pose proof UnknownCidVersion_neq_ConflictingOption as Huc.
  pose proof UnknownCidVersion_neq_UnsupportedCombination as Huu.
  split; [|split]; intros opts s Hloop.
  - rewrite (UnixfsAddOptions_error _ _ Hloop).
    destruct (Add.NoCopy s && negb (Add.RawLeaves s) && Add.RawLeavesSet s).
    { split; split; try reflexivity; try discriminate.
      intros (H & _). discriminate H. }
    destruct (Z.eqb_spec (Add.MhType s) mh.SHA2_256) as [Hmh | Hmh].
    { destruct (Add.CidVersion s <=? 1); split; split;
        try discriminate; try tauto;
        intros H; injection H as H; now (apply Huc in H || apply Huu in H). }
    destruct (Z.eqb_spec (Add.CidVersion s) 0) as [Hver | Hver].
    { split; split; try discriminate; auto. }
    destruct ((Add.CidVersion s =? 1) || (Add.CidVersion s =? -1));
      split; split; try discriminate; try tauto;
      intros H; injection H as H; now (apply Huc in H || apply Huu in H).
  - rewrite (UnixfsWriteOptions_error _ _ Hloop).
    destruct (Z.eqb_spec (Write.MhType s) mh.SHA2_256) as [Hmh | Hmh].
    { destruct (Write.CidVersion s <=? 1); split; try split;
        try discriminate; try tauto;
        intros H; injection H as H; now (apply Huc in H || apply Huu in H). }
    destruct (Z.eqb_spec (Write.CidVersion s) 0) as [Hver | Hver].
    { split; try split; try discriminate; auto. }
    destruct ((Write.CidVersion s =? 1) || (Write.CidVersion s =? -1));
      split; try split; try discriminate; try tauto;
      intros H; injection H as H; now (apply Huc in H || apply Huu in H).
  - rewrite (UnixfsMkdirOptions_error _ _ Hloop).
    destruct (Z.eqb_spec (Mkdir.MhType s) mh.SHA2_256) as [Hmh | Hmh].
    { destruct (Mkdir.CidVersion s <=? 1); split; try split;
        try discriminate; try tauto;
        intros H; injection H as H; now (apply Huc in H || apply Huu in H). }
    destruct (Z.eqb_spec (Mkdir.CidVersion s) 0) as [Hver | Hver].
    { split; try split; try discriminate; auto. }
    destruct ((Mkdir.CidVersion s =? 1) || (Mkdir.CidVersion s =? -1));
      split; try split; try discriminate; try tauto;
      intros H; injection H as H; now (apply Huc in H || apply Huu in H).
Qed.

(** The conflicting options of Add, and the hash function 0x13 with
    version 0 in the three resolvers. *)
Lemma X11_witness :
  snd (UnixfsAddOptions [Unixfs.Nocopy true; Unixfs.RawLeaves false])
    = Some ConflictingOption /\
  snd (UnixfsAddOptions [Unixfs.Hash 0x13; Unixfs.CidVersion 0])
    = Some UnsupportedCombination /\
  (snd (UnixfsWriteOptions [Unixfs.WriteHash 0x13; Unixfs.WriteCidVersion 0])
     <> Some ConflictingOption /\
   snd (UnixfsWriteOptions [Unixfs.WriteHash 0x13; Unixfs.WriteCidVersion 0])
     = Some UnsupportedCombination) /\
  (snd (UnixfsMkdirOptions [Unixfs.MkdirHash 0x13; Unixfs.MkdirCidVersion 0])
     <> Some ConflictingOption /\
   snd (UnixfsMkdirOptions [Unixfs.MkdirHash 0x13; Unixfs.MkdirCidVersion 0])
     = Some UnsupportedCombination).
Proof.
  destruct X11_causes_of_the_resolver_errors as (HA & HW & HM).
  split; [|split; [|split]].
  - exact (proj2 (proj1 (HA [Unixfs.Nocopy true; Unixfs.RawLeaves false]
                            _ eq_refl)) eq_refl).
  - refine (proj2 (proj2 (HA [Unixfs.Hash 0x13; Unixfs.CidVersion 0]
                             _ eq_refl)) _).
    split; [reflexivity|]. split; [cbn; discriminate|reflexivity].
  - destruct (HW [Unixfs.WriteHash 0x13; Unixfs.WriteCidVersion 0]
                 _ eq_refl) as (Hn & Hu).
    split; [exact Hn|]. apply Hu.
    split; [cbn; discriminate|reflexivity].
  - destruct (HM [Unixfs.MkdirHash 0x13; Unixfs.MkdirCidVersion 0]
                 _ eq_refl) as (Hn & Hu).
    split; [exact Hn|]. apply Hu.
    split; [cbn; discriminate|reflexivity].
Defined.

(** X12: when the option loop ends without error, a resolver succeeds
    exactly when: with sha2-256 the [CidVersion] is at most 1 (negative
    meaning unset), with another hash function it is 1 or -1; and, for
    [UnixfsAddOptions], the options did not leave [NoCopy] true with
    [RawLeaves] false and [RawLeavesSet] true. *)
Theorem X12_when_resolution_succeeds :
  (forall (opts : list UnixfsAddOption) s,
     applyOpts opts defaultAddSettings = (s, None) ->
     ((exists r p, UnixfsAddOptions opts = (Some r, p, None)) <->
      Add.NoCopy s && negb (Add.RawLeaves s) && Add.RawLeavesSet s = false /\
      (if Add.MhType s =? mh.SHA2_256
       then Add.CidVersion s <= 1
       else Add.CidVersion s = 1 \/ Add.CidVersion s = -1))) /\
  (forall (opts : list UnixfsWriteOption) s,
     applyOpts opts defaultWriteSettings = (s, None) ->
     ((exists r p, UnixfsWriteOptions opts = (Some r, p, None)) <->
      (if Write.MhType s =? mh.SHA2_256
       then Write.CidVersion s <= 1
       else Write.CidVersion s = 1 \/ Write.CidVersion s = -1))) /\
  (forall (opts : list UnixfsMkdirOption) s,
     applyOpts opts defaultMkdirSettings = (s, None) ->
     ((exists r p, UnixfsMkdirOptions opts = (Some r, p, None)) <->
      (if Mkdir.MhType s =? mh.SHA2_256
       then Mkdir.CidVersion s <= 1
       else Mkdir.CidVersion s = 1 \/ Mkdir.CidVersion s = -1))).
Proof.
  split; [|split]; intros opts s Hloop; split.
  - intros (r & p & H).
    destruct (UnixfsAddOptions_resolved _ _ _ _ Hloop H) as (H1 & H2 & _).
    now split.
  - intros (H1 & H2). now apply (UnixfsAddOptions_accepts opts s).
  - intros (r & p & H).
    now destruct (UnixfsWriteOptions_resolved _ _ _ _ Hloop H) as (H1 & _).
  - now apply UnixfsWriteOptions_accepts.
  - intros (r & p & H).
    now destruct (UnixfsMkdirOptions_resolved _ _ _ _ Hloop H) as (H1 & _).
  - now apply UnixfsMkdirOptions_accepts.
Qed.

(** Accepted options of the three resolvers. *)
Lemma X12_witness :
  (exists r p,
     UnixfsAddOptions [Unixfs.Nocopy true; Unixfs.Hash 0x13]
       = (Some r, p, None)) /\
  (exists r p,
     UnixfsWriteOptions [Unixfs.WriteCidVersion 1] = (Some r, p, None)) /\
  (exists r p,
     UnixfsMkdirOptions [Unixfs.MkdirCidVersion (-3)] = (Some r, p, None)).
Proof.
  destruct X12_when_resolution_succeeds as (HA & HW & HM).
  split; [|split].
  - apply (HA [Unixfs.Nocopy true; Unixfs.Hash 0x13] _ eq_refl).
    split; [reflexivity|]. cbn. right. reflexivity.
  - apply (HW [Unixfs.WriteCidVersion 1] _ eq_refl).
    cbn. discriminate.
  - apply (HM [Unixfs.MkdirCidVersion (-3)] _ eq_refl).
    cbn. discriminate.
Defined.

(** X13: whatever sequence of constructor calls the options are built
    from, the only errors [UnixfsAddOptions] returns are
    [ConflictingOption], [UnsupportedCombination] and [UnknownCidVersion]
    of the version the calls set; [UnixfsWriteOptions] and
    [UnixfsMkdirOptions] return the last two only. *)
Theorem X13_constructor_calls_fail_with_the_three_errors_only :
  (forall calls e,
     snd (UnixfsAddOptions (map addOption calls)) = Some e ->
     e = ConflictingOption \/ e = UnsupportedCombination \/
     e = UnknownCidVersion (lastArg arg_Add_CidVersion calls (-1))) /\
  (forall calls e,
     snd (UnixfsWriteOptions (map writeOption calls)) = Some e ->
     e = UnsupportedCombination \/
     e = UnknownCidVersion (lastArg arg_Write_WriteCidVersion calls (-1))) /\
  (forall calls e,
     snd (UnixfsMkdirOptions (map mkdirOption calls)) = Some e ->
     e = UnsupportedCombination \/
     e = UnknownCidVersion (lastArg arg_Mkdir_MkdirCidVersion calls (-1))).
Proof.
  split; [|split]; intros calls e.
  - rewrite (UnixfsAddOptions_error _ _
               (applyOpts_addCalls calls defaultAddSettings)).
    cbn [addLastWins Add.CidVersion Add.MhType Add.NoCopy Add.RawLeaves
         Add.RawLeavesSet defaultAddSettings].
    repeat match goal with
           | |- context [if ?b then _ else _] => destruct b
           end; intros H; inversion H; auto.
  - rewrite (UnixfsWriteOptions_error _ _
               (applyOpts_writeCalls calls defaultWriteSettings)).
    cbn [writeLastWins Write.CidVersion Write.MhType defaultWriteSettings].
    repeat match goal with
           | |- context [if ?b then _ else _] => destruct b
           end; intros H; inversion H; auto.
  - rewrite (UnixfsMkdirOptions_error _ _
               (applyOpts_mkdirCalls calls defaultMkdirSettings)).
    cbn [mkdirLastWins Mkdir.CidVersion Mkdir.MhType defaultMkdirSettings].
    repeat match goal with
           | |- context [if ?b then _ else _] => destruct b
           end; intros H; inversion H; auto.
Qed.

(** Rejected sequences of calls: version 9 in the three resolvers. *)
Lemma X13_witness :
  (snd (UnixfsAddOptions (map addOption [Add_Pin true; Add_CidVersion 9]))
     = Some (UnknownCidVersion 9)) /\
  (snd (UnixfsWriteOptions
          (map writeOption [Write_WriteCidVersion 9; Write_Create true]))
     = Some (UnknownCidVersion 9)) /\
  (snd (UnixfsMkdirOptions
          (map mkdirOption [Mkdir_MkdirHash 0x13; Mkdir_MkdirCidVersion 9]))
     = Some (UnknownCidVersion 9)).
Proof.
  destruct X13_constructor_calls_fail_with_the_three_errors_only
    as (HA & HW & HM).
  split; [|split].
  - destruct (HA [Add_Pin true; Add_CidVersion 9] _ eq_refl)
      as [H | [H | H]]; [discriminate H | discriminate H | reflexivity].
  - destruct (HW [Write_WriteCidVersion 9; Write_Create true] _ eq_refl)
      as [H | H]; [discriminate H | reflexivity].
  - destruct (HM [Mkdir_MkdirHash 0x13; Mkdir_MkdirCidVersion 9] _ eq_refl)
      as [H | H]; [discriminate H | reflexivity].
Defined.

(** ** How constructor calls compose *)

(** Two adjacent options that commute can be swapped anywhere in a
    sequence. *)
Lemma applyOpts_swap {T : Type} (l1 l2 : list (T -> T * option error))
    (o1 o2 : T -> T * option error) (s0 : T) :
  (forall s, applyOpts [o1; o2] s = applyOpts [o2; o1] s) ->
  applyOpts (l1 ++ o1 :: o2 :: l2) s0 = applyOpts (l1 ++ o2 :: o1 :: l2) s0.
Proof.
  intros Hcomm.
  rewrite (applyOpts_app_cases l1 (o1 :: o2 :: l2)).
  rewrite (applyOpts_app_cases l1 (o2 :: o1 :: l2)).
  destruct (applyOpts l1 s0) as [s1 [e|]]; [reflexivity|].
  change (o1 :: o2 :: l2) with ([o1; o2] ++ l2)%list.
  change (o2 :: o1 :: l2) with ([o2; o1] ++ l2)%list.
  rewrite (applyOpts_app_cases [o1; o2] l2).
  rewrite (applyOpts_app_cases [o2; o1] l2).
  now rewrite Hcomm.
Qed.

Lemma addOption_comm (c1 c2 : UnixfsAddCall) (s : UnixfsAddSettings) :
  addCallCtor c1 <> addCallCtor c2 ->
  applyOpts [addOption c1; addOption c2] s
  = applyOpts [addOption c2; addOption c1] s.
Proof.
  destruct c1, c2; intros H; try reflexivity; now elim H.
Qed.

Lemma writeOption_comm (c1 c2 : UnixfsWriteCall) (s : UnixfsWriteSettings) :
  writeCallCtor c1 <> writeCallCtor c2 ->
  applyOpts [writeOption c1; writeOption c2] s
  = applyOpts [writeOption c2; writeOption c1] s.
Proof.
  destruct c1, c2; intros H; try reflexivity; now elim H.
Qed.

Lemma mkdirOption_comm (c1 c2 : UnixfsMkdirCall) (s : UnixfsMkdirSettings) :
  mkdirCallCtor c1 <> mkdirCallCtor c2 ->
  applyOpts [mkdirOption c1; mkdirOption c2] s
  = applyOpts [mkdirOption c2; mkdirOption c1] s.
Proof.
  destruct c1, c2; intros H; try reflexivity; now elim H.
Qed.

(** X14: the order of two adjacent options built by different
    constructors does not matter: swapping them, anywhere in any option
    sequence, leaves the result of [UnixfsAddOptions],
    [UnixfsWriteOptions] and [UnixfsMkdirOptions] unchanged. *)
Theorem X14_different_constructors_commute :
  (forall (l1 l2 : list UnixfsAddOption) c1 c2,
     addCallCtor c1 <> addCallCtor c2 ->
     UnixfsAddOptions (l1 ++ addOption c1 :: addOption c2 :: l2)
     = UnixfsAddOptions (l1 ++ addOption c2 :: addOption c1 :: l2)) /\
  (forall (l1 l2 : list UnixfsWriteOption) c1 c2,
     writeCallCtor c1 <> writeCallCtor c2 ->
     UnixfsWriteOptions (l1 ++ writeOption c1 :: writeOption c2 :: l2)
     = UnixfsWriteOptions (l1 ++ writeOption c2 :: writeOption c1 :: l2)) /\
  (forall (l1 l2 : list UnixfsMkdirOption) c1 c2,
     mkdirCallCtor c1 <> mkdirCallCtor c2 ->
     UnixfsMkdirOptions (l1 ++ mkdirOption c1 :: mkdirOption c2 :: l2)
     = UnixfsMkdirOptions (l1 ++ mkdirOption c2 :: mkdirOption c1 :: l2)).
Proof.
  split; [|split]; intros l1 l2 c1 c2 H.
  - unfold UnixfsAddOptions. cbv zeta.
    rewrite (applyOpts_swap l1 l2 (addOption c1) (addOption c2));
      [reflexivity|].
    intros s. now apply addOption_comm.
  - unfold UnixfsWriteOptions. cbv zeta.
    rewrite (applyOpts_swap l1 l2 (writeOption c1) (writeOption c2));
      [reflexivity|].
    intros s. now apply writeOption_comm.
  - unfold UnixfsMkdirOptions. cbv zeta.
    rewrite (applyOpts_swap l1 l2 (mkdirOption c1) (mkdirOption c2));
      [reflexivity|].
    intros s. now apply mkdirOption_comm.
Qed.

(** Hash and version, raw leaves and version, parents and hash. *)
Lemma X14_witness :
  UnixfsAddOptions
    ([Unixfs.Pin true] ++ addOption (Add_Hash 0x13)
       :: addOption (Add_CidVersion 1) :: [])
  = UnixfsAddOptions
      ([Unixfs.Pin true] ++ addOption (Add_CidVersion 1)
         :: addOption (Add_Hash 0x13) :: []) /\
  UnixfsWriteOptions
    ([] ++ writeOption (Write_WriteRawLeaves false)
        :: writeOption (Write_WriteCidVersion 1) :: [])
  = UnixfsWriteOptions
      ([] ++ writeOption (Write_WriteCidVersion 1)
          :: writeOption (Write_WriteRawLeaves false) :: []) /\
  UnixfsMkdirOptions
    ([] ++ mkdirOption (Mkdir_Parents true)
        :: mkdirOption (Mkdir_MkdirHash 0x13) :: [])
  = UnixfsMkdirOptions
      ([] ++ mkdirOption (Mkdir_MkdirHash 0x13)
          :: mkdirOption (Mkdir_Parents true) :: []).
Proof.
  destruct X14_different_constructors_commute as (HA & HW & HM).
  split; [|split].
  - apply (HA [Unixfs.Pin true] [] (Add_Hash 0x13) (Add_CidVersion 1)).
    cbn. discriminate.
  - apply (HW [] [] (Write_WriteRawLeaves false) (Write_WriteCidVersion 1)).
    cbn. discriminate.
  - apply (HM [] [] (Mkdir_Parents true) (Mkdir_MkdirHash 0x13)).
    cbn. discriminate.
Defined.

Lemma lastArg_app {C A : Type} (sel : C -> option A) (l1 l2 : list C)
    (d : A) :
  lastArg sel (l1 ++ l2) d = lastArg sel l2 (lastArg sel l1 d).
Proof. unfold lastArg. apply fold_left_app. Qed.

Lemma lastArg_cons {C A : Type} (sel : C -> option A) (c : C)
    (l : list C) (d : A) :
  lastArg sel (c :: l) d
  = lastArg sel l (match sel c with Some a => a | None => d end).
Proof. reflexivity. Qed.

(** A call is dead when a later call is selected whenever it is. *)
Lemma lastArg_shadowed {C A : Type} (sel : C -> option A)
    (l1 l2 l3 : list C) (c c' : C) (d : A) :
  (sel c' = None -> sel c = None) ->
  lastArg sel (l1 ++ c :: l2 ++ c' :: l3) d
  = lastArg sel (l1 ++ l2 ++ c' :: l3) d.
Proof.
  intros Hsel.
  repeat (rewrite lastArg_app || rewrite lastArg_cons).
  destruct (sel c') eqn:Hc'; [reflexivity|].
  now rewrite (Hsel eq_refl).
Qed.

Lemma existsb_shadowed {C : Type} (f : C -> bool) (l1 l2 l3 : list C)
    (c c' : C) :
  (f c = true -> f c' = true) ->
  existsb f (l1 ++ c :: l2 ++ c' :: l3) = existsb f (l1 ++ l2 ++ c' :: l3).
Proof.
  intros Hf.
  rewrite !existsb_app. cbn [existsb]. rewrite !existsb_app. cbn [existsb].
  destruct (f c); [|reflexivity].
  rewrite (Hf eq_refl).
  now destruct (existsb f l1), (existsb f l2).
Qed.

Lemma addLastWins_shadowed (l1 l2 l3 : list UnixfsAddCall)
    (c c' : UnixfsAddCall) (s0 : UnixfsAddSettings) :
  addCallCtor c = addCallCtor c' ->
  addLastWins (l1 ++ c :: l2 ++ c' :: l3) s0
  = addLastWins (l1 ++ l2 ++ c' :: l3) s0.
Proof.
  intros H. unfold addLastWins.
  destruct c, c'; try discriminate H; clear H;
    rewrite (existsb_shadowed sets_RawLeaves) by auto;
    rewrite !(lastArg_shadowed _ l1 l2 l3)
      by (cbn; intros; (reflexivity || discriminate));
    reflexivity.
Qed.

Lemma writeLastWins_shadowed (l1 l2 l3 : list UnixfsWriteCall)
    (c c' : UnixfsWriteCall) (s0 : UnixfsWriteSettings) :
  writeCallCtor c = writeCallCtor c' ->
  writeLastWins (l1 ++ c :: l2 ++ c' :: l3) s0
  = writeLastWins (l1 ++ l2 ++ c' :: l3) s0.
Proof.
  intros H. unfold writeLastWins.
  destruct c, c'; try discriminate H; clear H;
    rewrite !(lastArg_shadowed _ l1 l2 l3)
      by (cbn; intros; (reflexivity || discriminate));
    reflexivity.
Qed.

Lemma mkdirLastWins_shadowed (l1 l2 l3 : list UnixfsMkdirCall)
    (c c' : UnixfsMkdirCall) (s0 : UnixfsMkdirSettings) :
  mkdirCallCtor c = mkdirCallCtor c' ->
  mkdirLastWins (l1 ++ c :: l2 ++ c' :: l3) s0
  = mkdirLastWins (l1 ++ l2 ++ c' :: l3) s0.
Proof.
  intros H. unfold mkdirLastWins.
  destruct c, c'; try discriminate H; clear H;
    rewrite !(lastArg_shadowed _ l1 l2 l3)
      by (cbn; intros; (reflexivity || discriminate));
    reflexivity.
Qed.

(** X15: a constructor call that is followed, anywhere later in the
    sequence, by a call of the same constructor has no effect: dropping it
    leaves the result of [UnixfsAddOptions], [UnixfsWriteOptions] and
    [UnixfsMkdirOptions] unchanged. *)
Theorem X15_overridden_call_has_no_effect :
  (forall l1 l2 l3 c c',
     addCallCtor c = addCallCtor c' ->
     UnixfsAddOptions (map addOption (l1 ++ c :: l2 ++ c' :: l3))
     = UnixfsAddOptions (map addOption (l1 ++ l2 ++ c' :: l3))) /\
  (forall l1 l2 l3 c c',
     writeCallCtor c = writeCallCtor c' ->
     UnixfsWriteOptions (map writeOption (l1 ++ c :: l2 ++ c' :: l3))
     = UnixfsWriteOptions (map writeOption (l1 ++ l2 ++ c' :: l3))) /\
  (forall l1 l2 l3 c c',
     mkdirCallCtor c = mkdirCallCtor c' ->
     UnixfsMkdirOptions (map mkdirOption (l1 ++ c :: l2 ++ c' :: l3))
     = UnixfsMkdirOptions (map mkdirOption (l1 ++ l2 ++ c' :: l3))).
Proof.
  split; [|split]; intros l1 l2 l3 c c' H.
  - unfold UnixfsAddOptions. cbv zeta.
    rewrite !applyOpts_addCalls.
    now rewrite (addLastWins_shadowed l1 l2 l3 c c').
  - unfold UnixfsWriteOptions. cbv zeta.
    rewrite !applyOpts_writeCalls.
    now rewrite (writeLastWins_shadowed l1 l2 l3 c c').
  - unfold UnixfsMkdirOptions. cbv zeta.
    rewrite !applyOpts_mkdirCalls.
    now rewrite (mkdirLastWins_shadowed l1 l2 l3 c c').
Qed.

(** A version 0 overridden by a later version 1, with a hash in
    between. *)
Lemma X15_witness :
  UnixfsAddOptions
    (map addOption
       ([] ++ Add_CidVersion 0 :: [Add_Hash 0x13] ++ Add_CidVersion 1 :: []))
  = UnixfsAddOptions
      (map addOption ([] ++ [Add_Hash 0x13] ++ Add_CidVersion 1 :: [])) /\
  UnixfsWriteOptions
    (map writeOption
       ([] ++ Write_WriteCidVersion 0 :: [Write_WriteHash 0x13]
           ++ Write_WriteCidVersion 1 :: []))
  = UnixfsWriteOptions
      (map writeOption
         ([] ++ [Write_WriteHash 0x13] ++ Write_WriteCidVersion 1 :: [])) /\
  UnixfsMkdirOptions
    (map mkdirOption
       ([] ++ Mkdir_MkdirCidVersion 0 :: [Mkdir_MkdirHash 0x13]
           ++ Mkdir_MkdirCidVersion 1 :: []))
  = UnixfsMkdirOptions
      (map mkdirOption
         ([] ++ [Mkdir_MkdirHash 0x13] ++ Mkdir_MkdirCidVersion 1 :: [])).
Proof.
  destruct X15_overridden_call_has_no_effect as (HA & HW & HM).
  split; [|split].
  - exact (HA [] [Add_Hash 0x13] [] (Add_CidVersion 0) (Add_CidVersion 1)
              eq_refl).
  - exact (HW [] [Write_WriteHash 0x13] []
              (Write_WriteCidVersion 0) (Write_WriteCidVersion 1) eq_refl).
  - exact (HM [] [Mkdir_MkdirHash 0x13] []
              (Mkdir_MkdirCidVersion 0) (Mkdir_MkdirCidVersion 1) eq_refl).
Defined.

(** ** Resolving again *)

(** X16: resolution is stable: after a successful resolution, passing the
    resolved [CidVersion] (and the resolved [RawLeaves]) as further,
    explicit options gives the same prefix and the same settings, except
    that [RawLeavesSet] of Add is then true. *)
Theorem X16_resolved_values_as_options_resolve_alike :
  (forall (opts : list UnixfsAddOption) r p,
     UnixfsAddOptions opts = (Some r, p, None) ->
     UnixfsAddOptions
       (opts ++ [Unixfs.CidVersion (Add.CidVersion r);
                 Unixfs.RawLeaves (Add.RawLeaves r)])
     = (Some (Add.set_RawLeavesSet true r), p, None)) /\
  (forall (opts : list UnixfsWriteOption) r p,
     UnixfsWriteOptions opts = (Some r, p, None) ->
     UnixfsWriteOptions
       (opts ++ [Unixfs.WriteCidVersion (Write.CidVersion r);
                 Unixfs.WriteRawLeaves (Write.RawLeaves r)])
     = (Some r, p, None)) /\
  (forall (opts : list UnixfsMkdirOption) r p,
     UnixfsMkdirOptions opts = (Some r, p, None) ->
     UnixfsMkdirOptions
       (opts ++ [Unixfs.MkdirCidVersion (Mkdir.CidVersion r)])
     = (Some r, p, None)).
Proof.
  split; [|split]; intros opts r p H.
  - unfold UnixfsAddOptions in *. cbv zeta in *.
    destruct (applyOpts opts defaultAddSettings) as [s [e|]] eqn:Hloop;
      [discriminate|].
    rewrite (applyOpts_app opts _ _ _ Hloop).
    destruct s as
      [ver mht inl lim raw rawset ch lay pin oh fc nc ev sil prog tf].
    simpl_settings.
    destruct nc, raw, rawset; simpl_settings; try discriminate H;
      destruct (mht =? mh.SHA2_256) eqn:Hmh; simpl_settings;
      case_version ver; cbn in H; try discriminate H;
      inversion H; subst; clear H; cbn; rewrite ?Hmh; reflexivity.
  - unfold UnixfsWriteOptions in *. cbv zeta in *.
    destruct (applyOpts opts defaultWriteSettings) as [s [e|]] eqn:Hloop;
      [discriminate|].
    rewrite (applyOpts_app opts _ _ _ Hloop).
    destruct s as [off cr par tr cnt raw ver mht].
    simpl_settings.
    destruct (mht =? mh.SHA2_256) eqn:Hmh; simpl_settings;
      case_version ver; destruct raw; cbn in H; try discriminate H;
      inversion H; subst; clear H; cbn; rewrite ?Hmh; reflexivity.
  - unfold UnixfsMkdirOptions in *. cbv zeta in *.
    destruct (applyOpts opts defaultMkdirSettings) as [s [e|]] eqn:Hloop;
      [discriminate|].
    rewrite (applyOpts_app opts _ _ _ Hloop).
    destruct s as [par ver mht].
    simpl_settings.
    destruct (mht =? mh.SHA2_256) eqn:Hmh; simpl_settings;
      case_version ver; cbn in H; try discriminate H;
      inversion H; subst; clear H; cbn; rewrite ?Hmh; reflexivity.
Qed.

(** The hash function 0x13 alone, resolved and resolved again. *)
Lemma X16_witness :
  (exists r p,
     UnixfsAddOptions [Unixfs.Hash 0x13] = (Some r, p, None) /\
     UnixfsAddOptions
       ([Unixfs.Hash 0x13]
          ++ [Unixfs.CidVersion (Add.CidVersion r);
              Unixfs.RawLeaves (Add.RawLeaves r)])
     = (Some (Add.set_RawLeavesSet true r), p, None)) /\
  (exists r p,
     UnixfsWriteOptions [Unixfs.WriteHash 0x13] = (Some r, p, None) /\
     UnixfsWriteOptions
       ([Unixfs.WriteHash 0x13]
          ++ [Unixfs.WriteCidVersion (Write.CidVersion r);
              Unixfs.WriteRawLeaves (Write.RawLeaves r)])
     = (Some r, p, None)) /\
  (exists r p,
     UnixfsMkdirOptions [Unixfs.MkdirHash 0x13] = (Some r, p, None) /\
     UnixfsMkdirOptions
       ([Unixfs.MkdirHash 0x13]
          ++ [Unixfs.MkdirCidVersion (Mkdir.CidVersion r)])
     = (Some r, p, None)).
Proof.
  destruct X16_resolved_values_as_options_resolve_alike as (HA & HW & HM).
  split; [|split]; eexists; eexists; (split; [vm_compute; reflexivity|]).
  - exact (HA [Unixfs.Hash 0x13] _ _ eq_refl).
  - exact (HW [Unixfs.WriteHash 0x13] _ _ eq_refl).
  - exact (HM [Unixfs.MkdirHash 0x13] _ _ eq_refl).
Defined.

(** ** File type names *)

(** X17: [FileType.String] gives the four declared file types four
    different names, and gives every other value, and no declared type,
    the name "<unknown file type>". *)
Theorem X17_file_type_names :
  (forall t u : iface.FileType,
     0 <= t <= 3 -> 0 <= u <= 3 ->
     iface.FileType.String t = iface.FileType.String u -> t = u) /\
  (forall t : iface.FileType,
     iface.FileType.String t = "<unknown file type>" <-> t < 0 \/ 3 < t).
Proof.
  split.
  - intros t u Ht Hu.
    assert (Hcases : forall x, 0 <= x <= 3 -> x = 0 \/ x = 1 \/ x = 2 \/ x = 3)
      by (intros; lia).
    destruct (Hcases t Ht) as [-> | [-> | [-> | ->]]];
      destruct (Hcases u Hu) as [-> | [-> | [-> | ->]]];
      cbn; intros H; try reflexivity; discriminate H.
  - intros t.
    destruct t as [|[[q|q|]|[q|q|]|]|q]; cbn; split; intros H;
      first [ discriminate H | reflexivity | lia ].
Qed.

(** The declared type [TDirectory], and the undeclared values 7 and
    -1. *)
Lemma X17_witness :
  iface.TDirectory = 2
  /\ iface.FileType.String 7 = "<unknown file type>"
  /\ iface.FileType.String (-1) = "<unknown file type>".
Proof.
  destruct X17_file_type_names as (Hinj & Hunk).
  split; [|split].
  - apply Hinj; [unfold iface.TDirectory; lia | lia | reflexivity].
  - apply Hunk. right. lia.
  - apply Hunk. left. lia.
Defined.
